(** * Legal document chatbot: ingestion-and-indexing pipeline

    A shallow embedding of [src/config.py], [src/blob_storage.py],
    [src/mock_storage.py], [src/cognitive_search.py] and [src/main.py].

    Conventions.
    - A Python [str] is a Rocq [string] holding its UTF-8 encoding, so
      [str.encode()] is the identity on the underlying bytes.  [str.lower]
      is modelled on ASCII letters; no non-ASCII letter lower-cases to a
      letter occurring in one of the extensions the code compares with.
    - Code that may raise returns a [result]; stateful code is a function
      from a state to a [result] and a new state.  Only subclasses of
      Python's [Exception] are modelled, which is what [except Exception]
      catches.  Logging has no effect on what is returned or stored and is
      left out.
    - The local file system is a finite map from paths to files and
      directories; file names are valid UTF-8.  Reading a file in text
      mode decodes strict UTF-8 and translates line endings, as
      [open(path, 'r', encoding='utf-8')] does.
    - The Azure SDK clients are not code of this repository: they are
      records of operations over an abstract remote state, and the theorems
      quantify over them.  A small in-memory backend is provided where a
      statement speaks about what the remote store holds. *)

From Stdlib Require Import ZArith String Ascii List Lia Bool.
From stdpp Require Import base option list gmap strings.

Local Open Scope string_scope.
Local Open Scope Z_scope.

(* ===================================================================== *)
(** ** Python strings and [os.path] (posixpath) *)
(* ===================================================================== *)

Module Py.

Definition chars (s : string) : list ascii := list_ascii_of_string s.
Definition str (l : list ascii) : string := string_of_list_ascii l.

Definition byte_of (c : ascii) : Z := Z.of_N (N_of_ascii c).
Definition char_of (z : Z) : ascii := ascii_of_N (Z.to_N z).

(** [str.encode()] : the bytes of the UTF-8 encoding. *)
Definition encode (s : string) : list Z := map byte_of (chars s).

Definition lower_char (c : ascii) : ascii :=
  let n := byte_of c in
  if (65 <=? n) && (n <=? 90) then char_of (n + 32) else c.

(** [s.lower()] *)
Definition lower (s : string) : string := str (map lower_char (chars s)).

Definition eqb_chars (a b : list ascii) : bool :=
  bool_decide (a = b).

(** [s.endswith(suffix)] *)
Definition endswith (s suffix : string) : bool :=
  let l := chars s in
  let x := chars suffix in
  eqb_chars (drop (length l - length x) l) x
  && (length x <=? length l)%nat.

(** [s[i:j]] for [0 <= i], [0 <= j]. *)
Definition slice (l : list ascii) (i j : Z) : list ascii :=
  take (Z.to_nat j - Z.to_nat i) (drop (Z.to_nat i) l).

(** [s.rfind(c)] for a one-character [c]: the highest index, or [-1]. *)
Fixpoint rfind_from (c : ascii) (l : list ascii) (i : Z) (acc : Z) : Z :=
  match l with
  | [] => acc
  | x :: r => rfind_from c r (i + 1) (if Ascii.eqb x c then i else acc)
  end.
Definition rfind (c : ascii) (l : list ascii) : Z := rfind_from c l 0 (-1).

(** [s.rstrip(c)] for a one-character [c]. *)
Fixpoint lstrip_chars (c : ascii) (l : list ascii) : list ascii :=
  match l with
  | x :: r => if Ascii.eqb x c then lstrip_chars c r else l
  | [] => []
  end.
Definition rstrip (c : ascii) (s : string) : string :=
  str (rev (lstrip_chars c (rev (chars s)))).

Definition sep : ascii := "/"%char.
Definition extsep : ascii := "."%char.

(** [os.path.basename(p)] : [p[p.rfind('/') + 1:]]. *)
Definition basename (p : string) : string :=
  let l := chars p in
  str (drop (Z.to_nat (rfind sep l + 1)) l).

(** [os.path.splitext(p)] ([genericpath._splitext]): split at the last
    dot of the last component, unless that component has only leading
    dots before it. *)
Definition splitext (p : string) : string * string :=
  let l := chars p in
  let sepIndex := rfind sep l in
  let dotIndex := rfind extsep l in
  if (sepIndex <? dotIndex)
     && existsb (fun c => negb (Ascii.eqb c extsep))
                (slice l (sepIndex + 1) dotIndex)
  then (str (take (Z.to_nat dotIndex) l), str (drop (Z.to_nat dotIndex) l))
  else (p, "").

(** [os.path.join(a, b)] for two components. *)
Definition join (a b : string) : string :=
  if String.prefix "/" b then b
  else if (String.eqb a "") || endswith a "/" then (a ++ b)%string
  else (a ++ "/" ++ b)%string.

(** Truth value of an [Optional[str]]: [None] and [''] are false. *)
Definition truthy (o : option string) : bool :=
  match o with
  | Some s => negb (String.eqb s "")
  | None => false
  end.

(** Hexadecimal digits, lower case, as [bytes.hex()] prints them. *)
Definition hex_digit (n : Z) : ascii :=
  if n <? 10 then char_of (48 + n) else char_of (87 + n).
Definition hex_byte (b : Z) : list ascii :=
  [hex_digit (b / 16); hex_digit (b mod 16)].

End Py.

(* ===================================================================== *)
(** ** [hashlib.md5] (RFC 1321) *)
(* ===================================================================== *)

Module MD5.

Definition mask32 : Z := 4294967295.
Definition w32 (x : Z) : Z := Z.land x mask32.
Definition not32 (x : Z) : Z := Z.lxor x mask32.
Definition add32 (x y : Z) : Z := w32 (x + y).
Definition rotl32 (x c : Z) : Z :=
  Z.lor (w32 (Z.shiftl x c)) (Z.shiftr x (32 - c)).

Definition K : list Z :=
  [ 3614090360; 3905402710; 606105819; 3250441966; 4118548399; 1200080426;
    2821735955; 4249261313; 1770035416; 2336552879; 4294925233; 2304563134;
    1804603682; 4254626195; 2792965006; 1236535329; 4129170786; 3225465664;
    643717713; 3921069994; 3593408605; 38016083; 3634488961; 3889429448;
    568446438; 3275163606; 4107603335; 1163531501; 2850285829; 4243563512;
    1735328473; 2368359562; 4294588738; 2272392833; 1839030562; 4259657740;
    2763975236; 1272893353; 4139469664; 3200236656; 681279174; 3936430074;
    3572445317; 76029189; 3654602809; 3873151461; 530742520; 3299628645;
    4096336452; 1126891415; 2878612391; 4237533241; 1700485571; 2399980690;
    4293915773; 2240044497; 1873313359; 4264355552; 2734768916; 1309151649;
    4149444226; 3174756917; 718787259; 3951481745 ].

Definition S : list Z :=
  [ 7; 12; 17; 22; 7; 12; 17; 22; 7; 12; 17; 22; 7; 12; 17; 22;
    5; 9; 14; 20; 5; 9; 14; 20; 5; 9; 14; 20; 5; 9; 14; 20;
    4; 11; 16; 23; 4; 11; 16; 23; 4; 11; 16; 23; 4; 11; 16; 23;
    6; 10; 15; 21; 6; 10; 15; 21; 6; 10; 15; 21; 6; 10; 15; 21 ].

(** Little-endian bytes of a word, and back. *)
Fixpoint le_bytes (n : nat) (x : Z) : list Z :=
  match n with
  | O => []
  | Datatypes.S n' => Z.land x 255 :: le_bytes n' (Z.shiftr x 8)
  end.
Fixpoint le_word (bs : list Z) : Z :=
  match bs with
  | [] => 0
  | b :: r => Z.lor b (Z.shiftl (le_word r) 8)
  end.

(** Padding: a [0x80] byte, zeros up to 56 modulo 64, the bit length on
    64 bits. *)
Definition pad (msg : list Z) : list Z :=
  let n := Z.of_nat (length msg) in
  msg ++ [128] ++ repeat 0 (Z.to_nat ((55 - n) mod 64))
      ++ le_bytes 8 (Z.land (8 * n) 18446744073709551615).

Fixpoint words (n : nat) (bs : list Z) : list Z :=
  match n with
  | O => []
  | Datatypes.S n' => le_word (take 4 bs) :: words n' (drop 4 bs)
  end.

Record state := St { sA : Z; sB : Z; sC : Z; sD : Z }.

Definition init : state :=
  St 1732584193 4023233417 2562383102 271733878.

Definition round (M : list Z) (st : state) (i : Z) : state :=
  let '(St a b c d) := st in
  let '(f, g) :=
    if i <? 16 then (Z.lor (Z.land b c) (Z.land (not32 b) d), i)
    else if i <? 32 then
      (Z.lor (Z.land d b) (Z.land (not32 d) c), (5 * i + 1) mod 16)
    else if i <? 48 then (Z.lxor b (Z.lxor c d), (3 * i + 5) mod 16)
    else (Z.lxor c (Z.lor b (not32 d)), (7 * i) mod 16) in
  let f' := add32 (add32 (add32 f a) (nth (Z.to_nat i) K 0))
                  (nth (Z.to_nat g) M 0) in
  St d (add32 b (rotl32 f' (nth (Z.to_nat i) S 0))) b c.

Definition block (st : state) (chunk : list Z) : state :=
  let M := words 16 chunk in
  let r := fold_left (round M) (map Z.of_nat (seq 0 64)) st in
  St (add32 (sA st) (sA r)) (add32 (sB st) (sB r))
     (add32 (sC st) (sC r)) (add32 (sD st) (sD r)).

Fixpoint blocks (n : nat) (st : state) (bs : list Z) : state :=
  match n with
  | O => st
  | Datatypes.S n' => blocks n' (block st (take 64 bs)) (drop 64 bs)
  end.

(** [hashlib.md5(data).digest()] *)
Definition digest (data : list Z) : list Z :=
  let p := pad data in
  let st := blocks (length p / 64) init p in
  le_bytes 4 (sA st) ++ le_bytes 4 (sB st)
    ++ le_bytes 4 (sC st) ++ le_bytes 4 (sD st).

(** [hashlib.md5(data).hexdigest()] *)
Definition hexdigest (data : list Z) : string :=
  Py.str (concat (map Py.hex_byte (digest data))).

End MD5.

(* ===================================================================== *)
(** ** Exceptions and stateful computations *)
(* ===================================================================== *)

(** The subclasses of [Exception] that the code raises, names or can get
    from the standard library and the SDKs. *)
Inductive exn : Type :=
| FileNotFoundError (msg : string)
| IsADirectoryError
| NotADirectoryError
| PermissionError
| UnicodeDecodeError
| ValueError (msg : string)
| ResourceExistsError
| ResourceNotFoundError
| HttpResponseError (status : Z).

Inductive result (A : Type) : Type :=
| Ok (a : A)
| Raise (e : exn).
Arguments Ok {A} a.
Arguments Raise {A} e.

Definition is_ok {A} (r : result A) : bool :=
  match r with Ok _ => true | Raise _ => false end.

(** A computation over a state [W] that returns or raises. *)
Definition M (W A : Type) : Type := W -> result A * W.

Definition ret {W A} (a : A) : M W A := fun w => (Ok a, w).
Definition raise {W A} (e : exn) : M W A := fun w => (Raise e, w).
Definition bind {W A C} (m : M W A) (k : A -> M W C) : M W C :=
  fun w => match m w with
           | (Ok a, w') => k a w'
           | (Raise e, w') => (Raise e, w')
           end.
Definition lift {W A} (r : result A) : M W A := fun w => (r, w).

(** [try: body except Exception as e: handler e] *)
Definition try_except {W A} (body : M W A) (handler : exn -> M W A) : M W A :=
  fun w => match body w with
           | (Ok a, w') => (Ok a, w')
           | (Raise e, w') => handler e w'
           end.

Notation "'do' x <- m ;; k" := (bind m (fun x => k))
  (at level 10, x name, m at level 99, k at level 200).
Notation "'do' ' p <- m ;; k" := (bind m (fun x => let p := x in k))
  (at level 10, p pattern, m at level 99, k at level 200).

(** [for x in xs: body x], threading an accumulator. *)
Fixpoint for_each {W X A} (xs : list X) (body : X -> A -> M W A) (acc : A)
  : M W A :=
  match xs with
  | [] => ret acc
  | x :: r => do acc' <- body x acc ;; for_each r body acc'
  end.

(* ===================================================================== *)
(** ** The local file system *)
(* ===================================================================== *)

Inductive node : Type :=
| File (data : string) (readable : bool)
| Dir (entries : list string) (st_size : Z).

Abbreviation filesystem := (gmap string node).

Module os.

(** [os.path.exists] *)
Definition exists_ (fs : filesystem) (p : string) : bool :=
  match fs !! p with Some _ => true | None => false end.

(** [os.path.isfile] *)
Definition isfile (fs : filesystem) (p : string) : bool :=
  match fs !! p with Some (File _ _) => true | _ => false end.

(** [os.path.isdir] *)
Definition isdir (fs : filesystem) (p : string) : bool :=
  match fs !! p with Some (Dir _ _) => true | _ => false end.

(** [os.listdir] *)
Definition listdir (fs : filesystem) (p : string) : result (list string) :=
  match fs !! p with
  | Some (Dir entries _) => Ok entries
  | Some (File _ _) => Raise NotADirectoryError
  | None => Raise (FileNotFoundError p)
  end.

(** [os.path.getsize] *)
Definition getsize (fs : filesystem) (p : string) : result Z :=
  match fs !! p with
  | Some (File data _) => Ok (Z.of_nat (String.length data))
  | Some (Dir _ sz) => Ok sz
  | None => Raise (FileNotFoundError p)
  end.

(** [open(p, 'rb').read()] *)
Definition read_bytes (fs : filesystem) (p : string) : result string :=
  match fs !! p with
  | Some (File data true) => Ok data
  | Some (File _ false) => Raise PermissionError
  | Some (Dir _ _) => Raise IsADirectoryError
  | None => Raise (FileNotFoundError p)
  end.

(** Strict UTF-8, as the [utf-8] codec checks it: no overlong form, no
    surrogate, nothing above U+10FFFF. *)
Definition cont (b : Z) : bool := (128 <=? b) && (b <=? 191).
Definition within (lo hi b : Z) : bool := (lo <=? b) && (b <=? hi).

Fixpoint utf8_valid (bs : list Z) : bool :=
  match bs with
  | [] => true
  | b0 :: r0 =>
    if b0 <=? 127 then utf8_valid r0
    else match r0 with
    | [] => false
    | b1 :: r1 =>
      if within 194 223 b0 then cont b1 && utf8_valid r1
      else match r1 with
      | [] => false
      | b2 :: r2 =>
        if within 224 239 b0 then
          (if b0 =? 224 then within 160 191 b1
           else if b0 =? 237 then within 128 159 b1
           else cont b1)
          && cont b2 && utf8_valid r2
        else match r2 with
        | [] => false
        | b3 :: r3 =>
          if within 240 244 b0 then
            (if b0 =? 240 then within 144 191 b1
             else if b0 =? 244 then within 128 143 b1
             else cont b1)
            && cont b2 && cont b3 && utf8_valid r3
          else false
        end
      end
    end
  end.

(** Universal newlines, the default of text mode ([newline=None]): on
    input, [\r\n] and a lone [\r] are translated into [\n]. *)
Definition CR : ascii := ascii_of_nat 13.
Definition LF : ascii := ascii_of_nat 10.

Fixpoint universal_newlines (l : list ascii) : list ascii :=
  match l with
  | [] => []
  | c :: r =>
    if Ascii.eqb c CR then
      match r with
      | d :: r' => if Ascii.eqb d LF then LF :: universal_newlines r'
                   else LF :: universal_newlines r
      | [] => [LF]
      end
    else c :: universal_newlines r
  end.

(** [open(p, 'r', encoding='utf-8').read()] *)
Definition read_text (fs : filesystem) (p : string) : result string :=
  match read_bytes fs p with
  | Ok data =>
    if utf8_valid (Py.encode data)
    then Ok (Py.str (universal_newlines (Py.chars data)))
    else Raise UnicodeDecodeError
  | Raise e => Raise e
  end.

End os.

(* ===================================================================== *)
(** ** [src/config.py] *)
(* ===================================================================== *)

Module config.

Record Config : Type := {
  storage_connection_string : option string;
  storage_container_name : string;
  search_service_endpoint : option string;
  search_api_key : option string;
  search_index_name : string;
  client_id : option string;
  client_secret : option string;
  tenant_id : option string
}.

(** [os.getenv(k)] and [os.getenv(k, d)] over an environment. *)
Definition getenv (env : gmap string string) (k : string) : option string :=
  env !! k.
Definition getenv_default (env : gmap string string) (k d : string)
  : string :=
  match env !! k with Some v => v | None => d end.

(** [Config.__init__] *)
Definition __init__ (env : gmap string string) : Config := {|
  storage_connection_string := getenv env "AZURE_STORAGE_CONNECTION_STRING";
  storage_container_name :=
    getenv_default env "AZURE_STORAGE_CONTAINER_NAME" "legal-documents";
  search_service_endpoint := getenv env "AZURE_SEARCH_SERVICE_ENDPOINT";
  search_api_key := getenv env "AZURE_SEARCH_API_KEY";
  search_index_name :=
    getenv_default env "AZURE_SEARCH_INDEX_NAME" "legal-documents-index";
  client_id := getenv env "AZURE_CLIENT_ID";
  client_secret := getenv env "AZURE_CLIENT_SECRET";
  tenant_id := getenv env "AZURE_TENANT_ID"
|}.

Definition validate_storage_config (self : Config) : bool :=
  Py.truthy (storage_connection_string self).

(** [bool(endpoint and api_key)] *)
Definition validate_search_config (self : Config) : bool :=
  Py.truthy (search_service_endpoint self) && Py.truthy (search_api_key self).

Definition validate_all_config (self : Config) : bool :=
  validate_storage_config self && validate_search_config self.

End config.

(* ===================================================================== *)
(** ** Index documents *)
(* ===================================================================== *)

(** The values the pipeline stores in a document record. *)
Inductive value : Type :=
| VStr (s : string)
| VInt (n : Z)
| VList (l : list string).

(** A [Dict[str, Any]]. *)
Abbreviation document := (gmap string value).

(** [k in d] *)
Definition has_key (d : document) (k : string) : bool :=
  match d !! k with Some _ => true | None => false end.

(** The extensions both directory walks accept. *)
Definition supported_extensions : list string :=
  [".pdf"; ".txt"; ".doc"; ".docx"; ".md"].

(** [x in a_set_of_strings] *)
Definition str_in (x : string) (l : list string) : bool :=
  existsb (String.eqb x) l.

(* ===================================================================== *)
(** ** [src/blob_storage.py] *)
(* ===================================================================== *)

Module blob_storage.
Section Sdk.

(** State of the remote blob service. *)
Context {R : Type}.

(** The operations of [azure.storage.blob] the adapter calls. *)
Record BlobServiceClient : Type := {
  create_container : string -> M R unit;
  (** [get_blob_client(container, blob).upload_blob(data, overwrite)] *)
  upload_blob : string -> string -> string -> bool -> M R unit;
  (** [get_container_client(container).list_blobs()], names only *)
  list_blobs : string -> M R (list string);
  (** [get_blob_client(container, blob).url] *)
  blob_url : string -> string -> string
}.

Record DocumentStorage : Type := {
  blob_service_client : BlobServiceClient;
  container_name : string
}.

Definition _ensure_container_exists (self : DocumentStorage) : M R unit :=
  try_except
    (create_container (blob_service_client self) (container_name self))
    (fun e => match e with
              | ResourceExistsError => ret tt
              | _ => raise e
              end).

(** [BlobServiceClient.from_connection_string]. *)
Variable from_connection_string : string -> result BlobServiceClient.

Definition __init__ (cfg : config.Config) : M R DocumentStorage :=
  if negb (config.validate_storage_config cfg) then
    raise (ValueError "Azure Storage configuration is missing. Please check your environment variables.")
  else
    do client <- lift (from_connection_string
                 (default "" (config.storage_connection_string cfg))) ;;
    let self := {| blob_service_client := client;
                   container_name := config.storage_container_name cfg |} in
    do _ <- _ensure_container_exists self ;;
    ret self.

Definition upload_document (self : DocumentStorage) (fs : filesystem)
    (file_path : string) (blob_name : option string) : M R string :=
  if negb (os.exists_ fs file_path) then
    raise (FileNotFoundError ("File not found: " ++ file_path))
  else
    let blob_name :=
      match blob_name with
      | None => Py.basename file_path
      | Some b => b
      end in
    try_except
      (do data <- lift (os.read_bytes fs file_path) ;;
       do _ <- upload_blob (blob_service_client self) (container_name self)
                          blob_name data true ;;
       ret blob_name)
      (fun e => raise e).

Definition upload_documents_from_directory (self : DocumentStorage)
    (fs : filesystem) (directory_path : string) : M R (list string) :=
  if negb (os.exists_ fs directory_path) then
    raise (FileNotFoundError ("Directory not found: " ++ directory_path))
  else
    do names <- lift (os.listdir fs directory_path) ;;
    for_each names
      (fun filename uploaded_blobs =>
         let file_path := Py.join directory_path filename in
         if negb (os.isfile fs file_path) then ret uploaded_blobs
         else
           let file_extension := Py.lower (snd (Py.splitext filename)) in
           if negb (str_in file_extension supported_extensions)
           then ret uploaded_blobs
           else
             try_except
               (do blob_name <- upload_document self fs file_path None ;;
                ret (uploaded_blobs ++ [blob_name])%list)
               (fun e => ret uploaded_blobs))
      [].

Definition list_documents (self : DocumentStorage) : M R (list string) :=
  try_except
    (list_blobs (blob_service_client self) (container_name self))
    (fun e => raise e).

Definition get_document_url (self : DocumentStorage) (blob_name : string)
  : M R string :=
  ret (blob_url (blob_service_client self) (container_name self) blob_name).

End Sdk.
Arguments BlobServiceClient R : clear implicits.
Arguments DocumentStorage R : clear implicits.
End blob_storage.

(* ===================================================================== *)
(** ** [src/mock_storage.py] *)
(* ===================================================================== *)

Module mock_storage.

(** A [MockDocumentStorage] object: [base_url] and the list
    [_documents]. *)
Record MockDocumentStorage : Type := {
  base_url : string;
  _documents : list string
}.

Definition __init__ (base_url : string) : MockDocumentStorage :=
  {| base_url := Py.rstrip "/" base_url ++ "/"; _documents := [] |}.

Definition default_base_url : string := "https://mock-storage.local/".

Definition upload_document (fs : filesystem) (file_path : string)
    (blob_name : option string) : M MockDocumentStorage string :=
  if negb (os.exists_ fs file_path) then raise (FileNotFoundError file_path)
  else
    let blob_name :=
      match blob_name with
      | None => Py.basename file_path
      | Some b => b
      end in
    fun self =>
      if negb (str_in blob_name (_documents self)) then
        (Ok blob_name,
         {| base_url := base_url self;
            _documents := (_documents self ++ [blob_name])%list |})
      else (Ok blob_name, self).

Definition list_documents : M MockDocumentStorage (list string) :=
  fun self => (Ok (_documents self), self).

Definition get_document_url (blob_name : string)
  : M MockDocumentStorage string :=
  fun self => (Ok (base_url self ++ blob_name)%string, self).

Definition upload_documents_from_directory (fs : filesystem)
    (directory_path : string) : M MockDocumentStorage (list string) :=
  if negb (os.isdir fs directory_path) then
    raise (FileNotFoundError directory_path)
  else
    do names <- lift (os.listdir fs directory_path) ;;
    for_each names
      (fun name uploaded =>
         let path := Py.join directory_path name in
         if os.isfile fs path then
           try_except
             (do blob_name <- upload_document fs path None ;;
              ret (uploaded ++ [blob_name])%list)
             (fun e => ret uploaded)
         else ret uploaded)
      [].

End mock_storage.

(* ===================================================================== *)
(** ** [src/cognitive_search.py] *)
(* ===================================================================== *)

Module cognitive_search.

(** [azure.search.documents.models.IndexingResult] *)
Record IndexingResult : Type := {
  key : string;
  succeeded : bool
}.

(** A field of the index schema: name, data type, and the flags set. *)
Record SearchField : Type := {
  field_name : string;
  field_type : string;
  field_flags : list string
}.

(** [azure.search.documents.indexes.models.SearchIndex] *)
Record SearchIndex : Type := {
  name : string;
  fields : list SearchField;
  cors_allowed_origins : list string;
  cors_max_age_in_seconds : Z
}.

Section Sdk.

(** State of the remote search service. *)
Context {B : Type}.

(** [azure.search.documents.SearchClient], bound to one index. *)
Record SearchClient : Type := {
  upload_documents : list document -> M B (list IndexingResult);
  delete_documents : list document -> M B (list IndexingResult);
  (** [search(search_text, top, select, filter, include_total_count)],
      iterated to the end *)
  search : string -> Z -> option (list string) -> option string -> bool
           -> M B (list document);
  get_document : string -> M B document;
  get_document_count : M B Z
}.

(** [azure.search.documents.indexes.SearchIndexClient] *)
Record SearchIndexClient : Type := {
  create_index : SearchIndex -> M B unit
}.

Record DocumentSearchIndex : Type := {
  service_endpoint : string;
  api_key : string;
  index_name : string;
  index_client : SearchIndexClient;
  search_client : SearchClient
}.

Definition _create_search_index (index_name : string) : SearchIndex := {|
  name := index_name;
  fields :=
    [ {| field_name := "id"; field_type := "Edm.String";
         field_flags := ["key"; "sortable"] |};
      {| field_name := "filename"; field_type := "Edm.String";
         field_flags := ["searchable"; "sortable"; "filterable"] |};
      {| field_name := "content"; field_type := "Edm.String";
         field_flags := ["searchable"; "analyzer:en.lucene"] |};
      {| field_name := "file_type"; field_type := "Edm.String";
         field_flags := ["filterable"; "facetable"] |};
      {| field_name := "upload_date"; field_type := "Edm.DateTimeOffset";
         field_flags := ["sortable"; "filterable"] |};
      {| field_name := "file_size"; field_type := "Edm.Int64";
         field_flags := ["sortable"; "filterable"] |};
      {| field_name := "blob_url"; field_type := "Edm.String";
         field_flags := ["retrievable"] |};
      {| field_name := "summary"; field_type := "Edm.String";
         field_flags := ["searchable"] |};
      {| field_name := "keywords"; field_type := "Collection(Edm.String)";
         field_flags := ["searchable"; "filterable"; "facetable"] |} ];
  cors_allowed_origins := ["*"];
  cors_max_age_in_seconds := 300
|}.

Definition _ensure_index_exists (index_client : SearchIndexClient)
    (index_name : string) : M B unit :=
  try_except
    (let index := _create_search_index index_name in
     do _ <- create_index index_client index ;;
     ret tt)
    (fun e => match e with
              | ResourceExistsError => ret tt
              | _ => raise e
              end).

(** The two client constructors, [SearchIndexClient(endpoint, credential)]
    and [SearchClient(endpoint, index_name, credential)]. *)
Variable new_index_client : string -> string -> SearchIndexClient.
Variable new_search_client : string -> string -> string -> SearchClient.

Definition __init__ (cfg : config.Config) : M B DocumentSearchIndex :=
  if negb (config.validate_search_config cfg) then
    raise (ValueError "Azure Cognitive Search configuration is missing. Please check your environment variables.")
  else
    let endpoint := default "" (config.search_service_endpoint cfg) in
    let api_key := default "" (config.search_api_key cfg) in
    let index_name := config.search_index_name cfg in
    let self := {|
      service_endpoint := endpoint;
      api_key := api_key;
      index_name := index_name;
      index_client := new_index_client endpoint api_key;
      search_client := new_search_client endpoint index_name api_key |} in
    do _ <- _ensure_index_exists (index_client self) (index_name) ;;
    ret self.

Definition required_fields : list string := ["id"; "filename"; "content"].

Definition index_document (self : DocumentSearchIndex)
    (document_data : document) : M B bool :=
  try_except
    (do _ <- for_each required_fields
               (fun field (_ : unit) =>
                  if negb (has_key document_data field) then
                    raise (ValueError ("Required field '" ++ field
                              ++ "' is missing from document data"))
                  else ret tt)
               tt ;;
     do result <- upload_documents (search_client self) [document_data] ;;
     (* result and len(result) > 0 and result[0].succeeded *)
     if match result with
        | [] => false
        | r0 :: _ => (0 <? Z.of_nat (length result)) && succeeded r0
        end
     then ret true
     else ret false)
    (fun e => ret false).

Definition index_documents_batch (self : DocumentSearchIndex)
    (documents_data : list document) : M B Z :=
  match documents_data with
  | [] => ret 0
  | _ =>
    try_except
      (do results <- upload_documents (search_client self) documents_data ;;
       let success_count :=
         fold_left Z.add
           (map (fun _ => 1) (filter (fun r => succeeded r = true) results))
           0 in
       ret success_count)
      (fun e => ret 0)
  end.

Definition search_documents (self : DocumentSearchIndex) (query : string)
    (top : Z) (select : option (list string))
    (filter_expression : option string) : M B (list document) :=
  try_except
    (do results <- search (search_client self) query top select
                          filter_expression true ;;
     let documents :=
       fold_left (fun (documents : list document) result =>
                    (documents ++ [result])%list) results [] in
     ret documents)
    (fun e => ret []).

Definition get_document_by_id (self : DocumentSearchIndex)
    (document_id : string) : M B (option document) :=
  try_except
    (do result <- get_document (search_client self) document_id ;;
     ret (Some result))
    (fun e => match e with
              | ResourceNotFoundError => ret None
              | _ => ret None
              end).

Definition delete_document (self : DocumentSearchIndex)
    (document_id : string) : M B bool :=
  try_except
    (do result <- delete_documents (search_client self)
                    [{[ "id" := VStr document_id ]}] ;;
     if match result with
        | [] => false
        | r0 :: _ => (0 <? Z.of_nat (length result)) && succeeded r0
        end
     then ret true
     else ret false)
    (fun e => ret false).

Definition get_index_statistics (self : DocumentSearchIndex)
  : M B document :=
  try_except
    (do stats <- get_document_count (search_client self) ;;
     ret ({[ "document_count" := VInt stats;
             "index_name" := VStr (index_name self) ]} : document))
    (fun e =>
     ret ({[ "document_count" := VInt 0;
             "index_name" := VStr (index_name self) ]} : document)).

End Sdk.
Arguments SearchClient B : clear implicits.
Arguments SearchIndexClient B : clear implicits.
Arguments DocumentSearchIndex B : clear implicits.
End cognitive_search.

(* ===================================================================== *)
(** ** [src/main.py] *)
(* ===================================================================== *)

Module main.

(** What the chatbot asks of its [storage] object; [DocumentStorage] and
    [MockDocumentStorage] both provide it.  The methods read the local
    file system and act on the state [S] behind the object. *)
Record Storage (S : Type) : Type := {
  upload_document : filesystem -> string -> option string -> M S string;
  list_documents : M S (list string);
  get_document_url : string -> M S string
}.
Arguments upload_document {S} _ _ _ _.
Arguments list_documents {S} _.
Arguments get_document_url {S} _ _.

(** What the chatbot asks of its [search_index] object. *)
Record SearchIndexObject (B : Type) : Type := {
  index_document : document -> M B bool;
  search_documents : string -> Z -> M B (list document);
  get_document_by_id : string -> M B (option document);
  get_index_statistics : M B document
}.
Arguments index_document {B} _ _.
Arguments search_documents {B} _ _ _.
Arguments get_document_by_id {B} _ _.
Arguments get_index_statistics {B} _.

Definition azure_storage {R} (self : blob_storage.DocumentStorage R)
  : Storage R := {|
  upload_document := blob_storage.upload_document self;
  list_documents := blob_storage.list_documents self;
  get_document_url := blob_storage.get_document_url self
|}.

Definition mock_storage : Storage mock_storage.MockDocumentStorage := {|
  upload_document := mock_storage.upload_document;
  list_documents := mock_storage.list_documents;
  get_document_url := mock_storage.get_document_url
|}.

Definition azure_search_index {B}
    (self : cognitive_search.DocumentSearchIndex B)
  : SearchIndexObject B := {|
  index_document := cognitive_search.index_document self;
  search_documents := fun query top =>
    cognitive_search.search_documents self query top None None;
  get_document_by_id := cognitive_search.get_document_by_id self;
  get_index_statistics := cognitive_search.get_index_statistics self
|}.

(** The stages of one file's ingestion.  To make their order observable
    the embedding leaves a mark when the call that starts a stage is made
    and another when that call has returned; the source itself keeps no
    such record, the marks only witness the order of its calls. *)
Inductive stage : Type := UPLOADING | EXTRACTING | INDEXING.

Inductive event : Type :=
| Begin (s : stage) (file_path : string)
| End_ (s : stage) (file_path : string).

#[global] Instance stage_eq_dec : EqDecision stage.
Proof. solve_decision. Defined.
#[global] Instance event_eq_dec : EqDecision event.
Proof. solve_decision. Defined.

(** What a run of the chatbot acts on: the local files, the clock, the
    state behind the storage object and behind the search index object,
    and the marks left so far. *)
Record world (S B : Type) : Type := World {
  w_fs : filesystem;
  w_clock : string;
  w_storage : S;
  w_search : B;
  w_trace : list event
}.
Arguments World {S B} _ _ _ _ _.
Arguments w_fs {S B} _.
Arguments w_clock {S B} _.
Arguments w_storage {S B} _.
Arguments w_search {S B} _.
Arguments w_trace {S B} _.

(** [hashlib.md5(filename.encode()).hexdigest()] *)
Definition _generate_document_id (filename : string) : string :=
  MD5.hexdigest (Py.encode filename).

Definition _extract_text_content (fs : filesystem) (file_path : string)
  : result string :=
  let filename_lower := Py.lower file_path in
  match
    (if Py.endswith filename_lower ".txt" || Py.endswith filename_lower ".md"
     then os.read_text fs file_path
     else if Py.endswith filename_lower ".pdf" then
       Ok ("PDF content from " ++ Py.basename file_path
           ++ " - Content extraction not implemented yet")
     else
       Ok ("Content from " ++ Py.basename file_path
           ++ " - File type not supported for text extraction"))
  with
  | Ok s => Ok s
  | Raise e => Ok ("Error extracting content from " ++ Py.basename file_path)
  end.

Section Chatbot.

Context {S B : Type}.
Variable storage : Storage S.
Variable search_index : SearchIndexObject B.

Local Abbreviation world := (world S B).

Definition on_storage {A} (m : M S A) : M world A :=
  fun w => let '(r, s) := m (w_storage w) in
           (r, World (w_fs w) (w_clock w) s (w_search w) (w_trace w)).

Definition on_search {A} (m : M B A) : M world A :=
  fun w => let '(r, b) := m (w_search w) in
           (r, World (w_fs w) (w_clock w) (w_storage w) b (w_trace w)).

Definition mark (e : event) : M world unit :=
  fun w => (Ok tt, World (w_fs w) (w_clock w) (w_storage w) (w_search w)
                         (w_trace w ++ [e])).

Definition in_stage {A} (s : stage) (file_path : string) (m : M world A)
  : M world A :=
  do _ <- mark (Begin s file_path) ;;
  do r <- m ;;
  do _ <- mark (End_ s file_path) ;;
  ret r.

Definition with_fs {A} (f : filesystem -> M world A) : M world A :=
  fun w => f (w_fs w) w.

(** [datetime.utcnow().isoformat()] *)
Definition utcnow_isoformat : M world string :=
  fun w => (Ok (w_clock w), w).

Definition upload_and_index_document (file_path : string)
    (summary : option string) (keywords : option (list string))
  : M world bool :=
  try_except
    ((* Upload to Blob Storage *)
     do blob_name <- in_stage UPLOADING file_path
       (with_fs (fun fs =>
          on_storage (upload_document storage fs file_path None))) ;;
     (* Prepare document data for indexing *)
     let filename := Py.basename file_path in
     let file_extension := Py.lower (snd (Py.splitext filename)) in
     do file_size <- with_fs (fun fs => lift (os.getsize fs file_path)) ;;
     let id := _generate_document_id filename in
     do content <- in_stage EXTRACTING file_path
       (with_fs (fun fs => lift (_extract_text_content fs file_path))) ;;
     do now <- utcnow_isoformat ;;
     do blob_url <- on_storage (get_document_url storage blob_name) ;;
     let document_data : document :=
       {[ "id" := VStr id;
          "filename" := VStr filename;
          "content" := VStr content;
          "file_type" := VStr file_extension;
          "upload_date" := VStr (now ++ "Z");
          "file_size" := VInt file_size;
          "blob_url" := VStr blob_url;
          "summary" := VStr
            (if Py.truthy summary then default "" summary
             else "Legal document: " ++ filename);
          "keywords" := VList
            (match keywords with
             | Some (k :: ks) => k :: ks
             | _ => []
             end) ]} in
     (* Index in Cognitive Search *)
     do success <- in_stage INDEXING file_path
       (on_search (index_document search_index document_data)) ;;
     if success then ret true else ret false)
    (fun e => ret false).

(** [results[k] += 1] on the counters dictionary. *)
Definition incr (k : string) (results : gmap string Z) : gmap string Z :=
  <[ k := default 0 (results !! k) + 1 ]> results.

Definition upload_and_index_directory (directory_path : string)
  : M world (gmap string Z) :=
  do present <- with_fs (fun fs => ret (os.exists_ fs directory_path)) ;;
  if negb present then
    raise (FileNotFoundError ("Directory not found: " ++ directory_path))
  else
    let results : gmap string Z :=
      {[ "successful" := 0; "failed" := 0; "skipped" := 0 ]} in
    do names <- with_fs (fun fs => lift (os.listdir fs directory_path)) ;;
    for_each names
      (fun filename results =>
         let file_path := Py.join directory_path filename in
         do is_file <- with_fs (fun fs => ret (os.isfile fs file_path)) ;;
         (* Skip directories *)
         if negb is_file then ret results
         else
           (* Check file extension *)
           let file_extension := Py.lower (snd (Py.splitext filename)) in
           if negb (str_in file_extension supported_extensions) then
             ret (incr "skipped" results)
           else
             (* Upload and index the document *)
             do ok <- upload_and_index_document file_path None None ;;
             if ok then ret (incr "successful" results)
             else ret (incr "failed" results))
      results.

End Chatbot.

(** The object [LegalDocumentChatbot.__init__] builds: each of its two
    attributes is either the injected object or one built from the
    configuration. *)
Inductive attr (Injected Built : Type) : Type :=
| injected (o : Injected)
| built (o : Built).
Arguments injected {Injected Built} o.
Arguments built {Injected Built} o.

Record LegalDocumentChatbot (SO IO R B : Type) : Type := {
  storage : attr SO (blob_storage.DocumentStorage R);
  search_index : attr IO (cognitive_search.DocumentSearchIndex B)
}.
Arguments storage {SO IO R B} _.
Arguments search_index {SO IO R B} _.

Section Init.

(** [SO], [IO]: the injected objects; [R], [B]: the remote blob and
    search services. *)
Context {SO IO R B : Type}.
Variable from_connection_string
  : string -> result (blob_storage.BlobServiceClient R).
Variable new_index_client
  : string -> string -> cognitive_search.SearchIndexClient B.
Variable new_search_client
  : string -> string -> string -> cognitive_search.SearchClient B.

Definition on_blob_service {A} (m : M R A) : M (R * B) A :=
  fun w => let '(r, x) := m (fst w) in (r, (x, snd w)).
Definition on_search_service {A} (m : M B A) : M (R * B) A :=
  fun w => let '(r, x) := m (snd w) in (r, (fst w, x)).

Definition __init__ (cfg : config.Config) (storage : option SO)
    (search_index : option IO)
  : M (R * B) (LegalDocumentChatbot SO IO R B) :=
  (* Always require search configuration (core capability) *)
  if negb (config.validate_search_config cfg) then
    raise (ValueError "Azure Cognitive Search configuration missing. Set AZURE_SEARCH_SERVICE_ENDPOINT and AZURE_SEARCH_API_KEY.")
  else
    (* Storage: either injected, real, or optional if mock provided *)
    do self_storage <-
      match storage with
      | Some s => ret (injected s)
      | None =>
        if config.validate_storage_config cfg then
          do d <- on_blob_service
                    (blob_storage.__init__ from_connection_string cfg) ;;
          ret (built d)
        else
          raise (ValueError "Azure Storage configuration missing. Provide environment vars OR pass a mock storage instance (e.g., MockDocumentStorage).")
      end ;;
    (* Search index: injected or created *)
    do self_search_index <-
      match search_index with
      | Some i => ret (injected i)
      | None =>
        do d <- on_search_service
                  (cognitive_search.__init__ new_index_client
                     new_search_client cfg) ;;
        ret (built d)
      end ;;
    ret {| storage := self_storage; search_index := self_search_index |}.

End Init.

End main.

(* ===================================================================== *)
(** ** An in-memory stand-in for the remote services *)
(* ===================================================================== *)

(** The blob service and the search service are external collaborators.
    Where a statement is about what they hold, it is made against this
    reference model: containers of named blobs and indexes of documents
    keyed by [id], creation that answers [ResourceExistsError] when the
    name is taken, upsert as insert-or-replace by key.  A script of faults
    stands for transport, authentication and quota failures: each SDK call
    consumes one entry, and a fault (an HTTP status) is raised as
    [HttpResponseError] and leaves the stored data untouched. *)
Module InMemory.

Record remote (T : Type) : Type := Remote {
  store : T;
  faults : list (option Z)
}.
Arguments Remote {T} _ _.
Arguments store {T} _.
Arguments faults {T} _.

Definition sdk_call {T A} (op : T -> result A * T) : M (remote T) A :=
  fun r =>
    match faults r with
    | Some status :: rest =>
      (Raise (HttpResponseError status), Remote (store r) rest)
    | None :: rest => let '(a, t) := op (store r) in (a, Remote t rest)
    | [] => let '(a, t) := op (store r) in (a, Remote t [])
    end.

(** The next entry of the fault script, if any. *)
Definition next_fault {T} (r : remote T) : option Z :=
  match faults r with
  | Some status :: _ => Some status
  | _ => None
  end.

(** *** Blob service *)

Abbreviation containers := (gmap string (gmap string string)).

Definition create_container (c : string) : M (remote containers) unit :=
  sdk_call (fun t : containers =>
    match t !! c with
    | Some _ => (Raise ResourceExistsError, t)
    | None => (Ok tt, <[ c := ∅ ]> t)
    end).

Definition upload_blob (c b data : string) (overwrite : bool)
  : M (remote containers) unit :=
  sdk_call (fun t : containers =>
    match t !! c with
    | None => (Raise ResourceNotFoundError, t)
    | Some blobs =>
      match blobs !! b with
      | Some _ =>
        if overwrite then (Ok tt, <[ c := <[ b := data ]> blobs ]> t)
        else (Raise ResourceExistsError, t)
      | None => (Ok tt, <[ c := <[ b := data ]> blobs ]> t)
      end
    end).

Definition list_blobs (c : string) : M (remote containers) (list string) :=
  sdk_call (fun t : containers =>
    match t !! c with
    | None => (Raise ResourceNotFoundError, t)
    | Some blobs => (Ok (map fst (map_to_list blobs)), t)
    end).

Definition blob_url (account c b : string) : string :=
  ("https://" ++ account ++ ".blob.core.windows.net/" ++ c ++ "/" ++ b)
  %string.

Definition blob_service_client (account : string)
  : blob_storage.BlobServiceClient (remote containers) := {|
  blob_storage.create_container := create_container;
  blob_storage.upload_blob := upload_blob;
  blob_storage.list_blobs := list_blobs;
  blob_storage.blob_url := blob_url account
|}.

(** *** Search service *)

Abbreviation indexes := (gmap string (gmap string document)).

Definition doc_key (d : document) : option string :=
  match d !! "id" with
  | Some (VStr k) => Some k
  | _ => None
  end.

Definition create_index (idx : cognitive_search.SearchIndex)
  : M (remote indexes) unit :=
  sdk_call (fun t : indexes =>
    match t !! cognitive_search.name idx with
    | Some _ => (Raise ResourceExistsError, t)
    | None => (Ok tt, <[ cognitive_search.name idx := ∅ ]> t)
    end).

Definition upsert (docs : gmap string document) (d : document)
  : gmap string document :=
  match doc_key d with
  | Some k => <[ k := d ]> docs
  | None => docs
  end.

Definition remove (docs : gmap string document) (d : document)
  : gmap string document :=
  match doc_key d with
  | Some k => delete k docs
  | None => docs
  end.

Definition ack (d : document) : cognitive_search.IndexingResult :=
  {| cognitive_search.key := default "" (doc_key d);
     cognitive_search.succeeded := true |}.

Definition all_keyed (ds : list document) : bool :=
  forallb (fun d => match doc_key d with Some _ => true | None => false end)
          ds.

(** A batch is refused as a whole when a document has no key; otherwise
    every document is upserted and acknowledged. *)
Definition upload_documents (index_name : string) (ds : list document)
  : M (remote indexes) (list cognitive_search.IndexingResult) :=
  sdk_call (fun t : indexes =>
    match t !! index_name with
    | None => (Raise ResourceNotFoundError, t)
    | Some docs =>
      if all_keyed ds then
        (Ok (map ack ds), <[ index_name := fold_left upsert ds docs ]> t)
      else (Raise (HttpResponseError 400), t)
    end).

Definition delete_documents (index_name : string) (ds : list document)
  : M (remote indexes) (list cognitive_search.IndexingResult) :=
  sdk_call (fun t : indexes =>
    match t !! index_name with
    | None => (Raise ResourceNotFoundError, t)
    | Some docs =>
      if all_keyed ds then
        (Ok (map ack ds), <[ index_name := fold_left remove ds docs ]> t)
      else (Raise (HttpResponseError 400), t)
    end).

(** [needle in haystack] *)
Fixpoint contains (needle haystack : string) : bool :=
  String.prefix needle haystack
  || match haystack with
     | EmptyString => false
     | String _ rest => contains needle rest
     end.

Definition matches (query : string) (d : document) : bool :=
  match d !! "content" with
  | Some (VStr text) => contains query text
  | _ => false
  end.

(** Free-text search reduced to substring match on [content]; [select]
    and [filter] are ignored; at most [top] documents are returned and
    a negative [top] is refused. *)
Definition search (index_name : string) (query : string) (top : Z)
    (select : option (list string)) (filter_expression : option string)
    (include_total_count : bool) : M (remote indexes) (list document) :=
  sdk_call (fun t : indexes =>
    match t !! index_name with
    | None => (Raise ResourceNotFoundError, t)
    | Some docs =>
      if top <? 0 then (Raise (HttpResponseError 400), t)
      else
        (Ok (take (Z.to_nat top)
               (filter (fun d => matches query d = true)
                       (map snd (map_to_list docs)))), t)
    end).

Definition get_document (index_name : string) (k : string)
  : M (remote indexes) document :=
  sdk_call (fun t : indexes =>
    match t !! index_name with
    | None => (Raise ResourceNotFoundError, t)
    | Some docs =>
      match docs !! k with
      | Some d => (Ok d, t)
      | None => (Raise ResourceNotFoundError, t)
      end
    end).

Definition get_document_count (index_name : string)
  : M (remote indexes) Z :=
  sdk_call (fun t : indexes =>
    match t !! index_name with
    | None => (Raise ResourceNotFoundError, t)
    | Some docs => (Ok (Z.of_nat (size docs)), t)
    end).

Definition search_client (index_name : string)
  : cognitive_search.SearchClient (remote indexes) := {|
  cognitive_search.upload_documents := upload_documents index_name;
  cognitive_search.delete_documents := delete_documents index_name;
  cognitive_search.search := search index_name;
  cognitive_search.get_document := get_document index_name;
  cognitive_search.get_document_count := get_document_count index_name
|}.

Definition index_client : cognitive_search.SearchIndexClient (remote indexes)
  := {| cognitive_search.create_index := create_index |}.

(** A [DocumentSearchIndex] connected to the in-memory service. *)
Definition document_search_index (index_name : string)
  : cognitive_search.DocumentSearchIndex (remote indexes) := {|
  cognitive_search.service_endpoint := "https://search.local";
  cognitive_search.api_key := "key";
  cognitive_search.index_name := index_name;
  cognitive_search.index_client := index_client;
  cognitive_search.search_client := search_client index_name
|}.

(** A [DocumentStorage] connected to the in-memory service. *)
Definition document_storage (c : string)
  : blob_storage.DocumentStorage (remote containers) := {|
  blob_storage.blob_service_client := blob_service_client "account";
  blob_storage.container_name := c
|}.

End InMemory.

(* ===================================================================== *)
(** ** Vocabulary of the statements *)
(* ===================================================================== *)

(** The three fields [index_document] requires. *)
Definition all_required (d : document) : bool :=
  has_key d "id" && has_key d "filename" && has_key d "content".

(** What the backend's answer to a one-document batch acknowledges: the
    success flag of its first item. *)
Definition acknowledged (r : result (list cognitive_search.IndexingResult))
  : bool :=
  match r with
  | Ok (r0 :: _) => cognitive_search.succeeded r0
  | _ => false
  end.

(** Number of per-item acknowledgements that report success. *)
Definition count_succeeded (rs : list cognitive_search.IndexingResult) : Z :=
  Z.of_nat (length (filter (fun r => cognitive_search.succeeded r = true) rs)).

(** The contract of the search backend on paging: a query answered with
    [top = n] yields at most [n] documents. *)
Definition honours_top {B} (c : cognitive_search.SearchClient B) : Prop :=
  forall query top select filter_expression itc b docs b',
    cognitive_search.search c query top select filter_expression itc b
    = (Ok docs, b') ->
    Z.of_nat (length docs) <= top.

(** The text [_extract_text_content] yields (it always yields one). *)
Definition extracted (fs : filesystem) (file_path : string) : string :=
  match main._extract_text_content fs file_path with
  | Ok s => s
  | Raise _ => ""
  end.

(** The record [upload_and_index_document] assembles for [file_path], from
    the size, the extracted text, the clock reading and the blob URL. *)
Definition document_data (file_path : string) (summary : option string)
    (keywords : option (list string)) (file_size : Z) (content now url : string)
  : document :=
  let filename := Py.basename file_path in
  {[ "id" := VStr (main._generate_document_id filename);
     "filename" := VStr filename;
     "content" := VStr content;
     "file_type" := VStr (Py.lower (snd (Py.splitext filename)));
     "upload_date" := VStr (now ++ "Z");
     "file_size" := VInt file_size;
     "blob_url" := VStr url;
     "summary" := VStr (if Py.truthy summary then default "" summary
                        else "Legal document: " ++ filename);
     "keywords" := VList (match keywords with
                          | Some (k :: ks) => k :: ks
                          | _ => []
                          end) ]}.

(** The marks a complete ingestion of [file_path] leaves, in order. *)
Definition stages (file_path : string) : list main.event :=
  [ main.Begin main.UPLOADING file_path; main.End_ main.UPLOADING file_path;
    main.Begin main.EXTRACTING file_path; main.End_ main.EXTRACTING file_path;
    main.Begin main.INDEXING file_path; main.End_ main.INDEXING file_path ].


(** The children of a directory that are regular files, and those among
    them whose extension is not supported. *)
Definition regular_files (fs : filesystem) (directory_path : string)
    (names : list string) : list string :=
  List.filter (fun n => os.isfile fs (Py.join directory_path n)) names.

Definition supported (filename : string) : bool :=
  str_in (Py.lower (snd (Py.splitext filename))) supported_extensions.



(** A client that keeps, next to the remote state, the list of the batches
    handed to [upload_documents]. *)
Definition recording {B} (c : cognitive_search.SearchClient B)
  : cognitive_search.SearchClient (B * list (list document)) :=
  let pass {A} (m : M B A) : M (B * list (list document)) A :=
    fun s => let '(r, b) := m (fst s) in (r, (b, snd s)) in
  {| cognitive_search.upload_documents := fun ds s =>
       let '(r, b) := cognitive_search.upload_documents c ds (fst s) in
       (r, (b, (snd s ++ [ds])%list));
     cognitive_search.delete_documents := fun ds =>
       pass (cognitive_search.delete_documents c ds);
     cognitive_search.search := fun q top sel flt itc =>
       pass (cognitive_search.search c q top sel flt itc);
     cognitive_search.get_document := fun k =>
       pass (cognitive_search.get_document c k);
     cognitive_search.get_document_count :=
       pass (cognitive_search.get_document_count c) |}.

(* ===================================================================== *)
(** ** Sample data *)
(* ===================================================================== *)

Module Sample.

Definition lease : document :=
  {[ "id" := VStr "1"; "filename" := VStr "lease.txt";
     "content" := VStr "notice of contract termination" ]}.

(** A record without the [content] field. *)
Definition deed : document :=
  {[ "id" := VStr "2"; "filename" := VStr "deed.txt" ]}.

Definition index_name : string := "legal-documents-index".

(** A search service holding one empty index, with no fault scripted. *)
Definition search_service : InMemory.remote InMemory.indexes :=
  InMemory.Remote {[ index_name := ∅ ]} [].

(** The same service, about to fail its next call. *)
Definition search_outage : InMemory.remote InMemory.indexes :=
  InMemory.Remote {[ index_name := ∅ ]} [Some 503].

Definition search_index
  : cognitive_search.DocumentSearchIndex (InMemory.remote InMemory.indexes)
  := InMemory.document_search_index index_name.

(** A text with a Windows line ending: [a], CR, LF, [b]. *)
Definition crlf_text : string :=
  String "a" (String os.CR (String os.LF (String "b" EmptyString))).

(** What text mode reads from it: [a], LF, [b]. *)
Definition lf_text : string :=
  String "a" (String os.LF (String "b" EmptyString)).

Definition memo_fs : filesystem :=
  {[ "memo.txt" := File crlf_text true;
     "sealed.md" := File "secret" false;
     "latin1.txt" := File (String (ascii_of_nat 233) EmptyString) true ]}.

(** A directory of four entries: two supported files, one unsupported
    file and one subdirectory. *)
Definition fs : filesystem :=
  {[ "docs" := Dir ["lease.txt"; "brief.pdf"; "notes.exe"; "archive"] 4096;
     "docs/lease.txt" := File "notice of contract termination" true;
     "docs/brief.pdf" := File "%PDF-1.4" true;
     "docs/notes.exe" := File "MZ" true;
     "docs/archive" := Dir [] 4096 ]}.

Definition mock : mock_storage.MockDocumentStorage :=
  mock_storage.__init__ mock_storage.default_base_url.

Abbreviation world :=
  (main.world mock_storage.MockDocumentStorage
              (InMemory.remote InMemory.indexes)).

(** The chatbot of the search-only set-up: mock storage, real adapter. *)
Definition world0 : world :=
  main.World fs "2024-05-01T12:00:00" mock search_service [].


Definition ingest (file_path : string) : M world bool :=
  main.upload_and_index_document main.mock_storage
    (main.azure_search_index search_index) file_path None None.

Definition ingest_directory (directory_path : string)
  : M world (gmap string Z) :=
  main.upload_and_index_directory main.mock_storage
    (main.azure_search_index search_index) directory_path.

(** A blob service whose container already holds a blob, and a
    [DocumentStorage] connected to it. *)
Definition blob_service : InMemory.remote InMemory.containers :=
  InMemory.Remote
    {[ "legal-documents" := {[ "lease.txt" := "notice of contract termination" ]} ]}
    [].

Definition storage : blob_storage.DocumentStorage
                       (InMemory.remote InMemory.containers) :=
  InMemory.document_storage "legal-documents".

(** Two environments: one with the search settings only, one with the
    storage settings only. *)
Definition env_search_only : gmap string string :=
  {[ "AZURE_SEARCH_SERVICE_ENDPOINT" := "https://legal.search.windows.net";
     "AZURE_SEARCH_API_KEY" := "secret" ]}.

Definition env_storage_only : gmap string string :=
  {[ "AZURE_STORAGE_CONNECTION_STRING" := "UseDevelopmentStorage=true" ]}.

(** The SDK constructors, connected to the in-memory services. *)
Definition from_connection_string (connection_string : string)
  : result (blob_storage.BlobServiceClient (InMemory.remote InMemory.containers))
  := Ok (InMemory.blob_service_client "account").

Definition new_index_client (endpoint api_key : string)
  : cognitive_search.SearchIndexClient (InMemory.remote InMemory.indexes) :=
  InMemory.index_client.

Definition new_search_client (endpoint index_name api_key : string)
  : cognitive_search.SearchClient (InMemory.remote InMemory.indexes) :=
  InMemory.search_client index_name.

(** [LegalDocumentChatbot(storage, search_index)], objects of the two
    kinds being injected or not. *)
Definition chatbot (env : gmap string string)
    (storage : option mock_storage.MockDocumentStorage)
    (search_index : option (cognitive_search.DocumentSearchIndex
                              (InMemory.remote InMemory.indexes))) :=
  main.__init__ from_connection_string new_index_client new_search_client
    (config.__init__ env) storage search_index.

(** Another file named [lease.txt], elsewhere and with another content,
    met by a chatbot whose index is in the state [service]. *)
Definition inbox : filesystem :=
  {[ "inbox/lease.txt" := File "a new lease, signed in May" true ]}.

Definition world_later (service : InMemory.remote InMemory.indexes) : world :=
  main.World inbox "2024-06-01T09:30:00" mock service [].

End Sample.


(* ===================================================================== *)
(** ** [src/main.py]: the query methods of the chatbot *)
(* ===================================================================== *)

Module chatbot.
Section Methods.

Context {S B : Type}.
Variable storage : main.Storage S.
Variable search_index : main.SearchIndexObject B.
Variable cfg : config.Config.

(** [search_documents(query, max_results=10)] *)
Definition search_documents (query : string) (max_results : Z)
  : M (main.world S B) (list document) :=
  main.on_search (main.search_documents search_index query max_results).

Definition get_document_info (document_id : string)
  : M (main.world S B) (option document) :=
  main.on_search (main.get_document_by_id search_index document_id).

Definition list_all_documents : M (main.world S B) (list string) :=
  main.on_storage (main.list_documents storage).

(** The result is a dictionary of two dictionaries. *)
Definition get_statistics : M (main.world S B) (gmap string document) :=
  do storage_docs <- main.on_storage (main.list_documents storage) ;;
  do search_stats <- main.on_search (main.get_index_statistics search_index) ;;
  ret ({[ "blob_storage" :=
            ({[ "document_count" := VInt (Z.of_nat (length storage_docs));
                "container_name" :=
                  VStr (config.storage_container_name cfg) ]} : document);
          "search_index" := search_stats ]} : gmap string document).

End Methods.
End chatbot.

(* ===================================================================== *)
(** ** [src/blob_storage.py]: [download_document] *)
(* ===================================================================== *)

(** Writing to the local file system.  Paths are keys of a flat map, as
    for reading; a new file needs its parent directory, and its name is
    added to the parent's listing.  A file that cannot be read is taken to
    be closed to writing as well. *)
Module os_write.

(** [os.path.dirname] *)
Definition dirname (p : string) : string :=
  let l := Py.chars p in
  let head := take (Z.to_nat (Py.rfind Py.sep l + 1)) l in
  if forallb (Ascii.eqb Py.sep) head then Py.str head
  else Py.rstrip Py.sep (Py.str head).

Definition add_entry (name : string) (fs : filesystem) (parent : string)
  : filesystem :=
  match fs !! parent with
  | Some (Dir entries sz) =>
    if str_in name entries then fs
    else <[ parent := Dir (entries ++ [name]) sz ]> fs
  | _ => fs
  end.

(** [open(p, 'wb')]: the file is created, or emptied if it exists. *)
Definition open_wb (fs : filesystem) (p : string) : result filesystem :=
  match fs !! p with
  | Some (Dir _ _) => Raise IsADirectoryError
  | Some (File _ true) => Ok (<[ p := File "" true ]> fs)
  | Some (File _ false) => Raise PermissionError
  | None =>
    let parent := dirname p in
    if String.eqb p "" then Raise (FileNotFoundError p)
    else if String.eqb (Py.basename p) "" then
      (* a path with a trailing separator names a directory *)
      match fs !! parent with
      | Some (Dir _ _) => Raise IsADirectoryError
      | Some (File _ _) => Raise NotADirectoryError
      | None => Raise (FileNotFoundError p)
      end
    else if String.eqb parent "" then Ok (<[ p := File "" true ]> fs)
    else
      match fs !! parent with
      | Some (Dir _ _) =>
        Ok (<[ p := File "" true ]> (add_entry (Py.basename p) fs parent))
      | Some (File _ _) => Raise NotADirectoryError
      | None => Raise (FileNotFoundError p)
      end
  end.

(** [f.write(data)] on the file opened at [p]. *)
Definition write (fs : filesystem) (p data : string) : filesystem :=
  <[ p := File data true ]> fs.

End os_write.

Module blob_download.
Section Sdk.

Context {R : Type}.

(** [get_blob_client(container, blob).download_blob().readall()] *)
Variable download_blob : string -> string -> M R string.

Definition on_fs {A} (f : filesystem -> result A * filesystem)
  : M (filesystem * R) A :=
  fun w => let '(a, fs) := f (fst w) in (a, (fs, snd w)).

Definition on_remote {A} (m : M R A) : M (filesystem * R) A :=
  fun w => let '(a, r) := m (snd w) in (a, (fst w, r)).

(** The file is opened for writing first; the blob is fetched while it is
    open, and then written. *)
Definition download_document (self : blob_storage.DocumentStorage R)
    (blob_name download_path : string) : M (filesystem * R) string :=
  try_except
    (do _ <- on_fs (fun fs =>
               match os_write.open_wb fs download_path with
               | Ok fs' => (Ok tt, fs')
               | Raise e => (Raise e, fs)
               end) ;;
     do data <- on_remote
                  (download_blob (blob_storage.container_name self) blob_name) ;;
     do _ <- on_fs (fun fs => (Ok tt, os_write.write fs download_path data)) ;;
     ret download_path)
    (fun e => match e with
              | ResourceNotFoundError => raise e
              | _ => raise e
              end).

End Sdk.
End blob_download.

(** Fetching a blob from the in-memory blob service. *)
Definition in_memory_download_blob (c b : string)
  : M (InMemory.remote InMemory.containers) string :=
  InMemory.sdk_call (fun t : InMemory.containers =>
    match t !! c with
    | None => (Raise ResourceNotFoundError, t)
    | Some blobs =>
      match blobs !! b with
      | Some data => (Ok data, t)
      | None => (Raise ResourceNotFoundError, t)
      end
    end).

(* ===================================================================== *)
(** ** [src/scripts/reddit_scraper.py]: [flatten_comments] *)
(* ===================================================================== *)

Module reddit_scraper.
Section Praw.

(** [created_utc] is a float; it is carried along and never computed
    with. *)
Variable timestamp : Type.

(** The attributes of a [praw.models.Comment] the scraper reads. *)
Record Comment : Type := {
  id : string;
  parent_id : string;
  author : option string;
  body : string;
  score : Z;
  created_utc : timestamp;
  permalink : string;
  depth : option Z
}.

(** An element of [submission.comments.list()]: a comment, or a
    [MoreComments] placeholder. *)
Inductive item : Type :=
| comment (c : Comment)
| more_comments.

(** The values of the dictionary written for a comment. *)
Inductive field : Type :=
| FNone
| FStr (s : string)
| FInt (n : Z)
| FFloat (t : timestamp).

Definition entry (c : Comment) : gmap string field :=
  {[ "id" := FStr (id c);
     "parent_id" := FStr (parent_id c);
     "author" := match author c with Some a => FStr a | None => FNone end;
     "body" := FStr (body c);
     "score" := FInt (score c);
     "created_utc" := FFloat (created_utc c);
     "permalink" := FStr ("https://www.reddit.com" ++ permalink c);
     "depth" := match depth c with Some d => FInt d | None => FNone end ]}.

(** The loop over [enumerate(items)] from index [idx] on. *)
Fixpoint flatten_from (items : list item) (idx : Z) (max_comments : option Z)
    (flat : list (gmap string field)) : list (gmap string field) :=
  match items with
  | [] => flat
  | c :: rest =>
    if match max_comments with
       | Some m => m <=? idx
       | None => false
       end
    then flat
    else
      match c with
      | more_comments => flatten_from rest (idx + 1) max_comments flat
      | comment c =>
        flatten_from rest (idx + 1) max_comments (flat ++ [entry c])
      end
  end.

(** [flatten_comments(submission, max_comments)], given
    [submission.comments.list()]. *)
Definition flatten_comments (items : list item) (max_comments : option Z)
  : list (gmap string field) :=
  flatten_from items 0 max_comments [].

(** The comments among a list of items. *)
Definition comments_of (items : list item) : list Comment :=
  flat_map (fun i => match i with comment c => [c] | more_comments => [] end)
           items.

End Praw.
Arguments comment {timestamp} c.
Arguments more_comments {timestamp}.
Arguments FNone {timestamp}.
Arguments FStr {timestamp} s.
Arguments FInt {timestamp} n.
Arguments FFloat {timestamp} t.
End reddit_scraper.

(* ===================================================================== *)
(** ** Further vocabulary and sample data *)
(* ===================================================================== *)

(** The environment sets [k] to a non-empty value. *)
Definition set_nonempty (env : gmap string string) (k : string) : Prop :=
  exists v, env !! k = Some v /\ v <> "".

(** A lower-case hexadecimal digit. *)
Definition is_lower_hex (c : ascii) : bool :=
  let n := Py.byte_of c in
  ((48 <=? n) && (n <=? 57)) || ((97 <=? n) && (n <=? 102)).

(** The names of the fields of the index schema. *)
Definition schema_fields (index_name : string) : list string :=
  map cognitive_search.field_name
      (cognitive_search.fields
         (cognitive_search._create_search_index index_name)).

Module Fixtures.

(** The chatbot with the real storage adapter, both services in memory. *)
Abbreviation azure_world :=
  (main.world (InMemory.remote InMemory.containers)
              (InMemory.remote InMemory.indexes)).

Definition azure : azure_world :=
  main.World Sample.fs "2024-05-01T12:00:00" Sample.blob_service
             Sample.search_service [].

(** The same, with the search service failing its first call. *)
Definition azure_search_down : azure_world :=
  main.World Sample.fs "2024-05-01T12:00:00" Sample.blob_service
             Sample.search_outage [].

(** A blob service about to fail its next call. *)
Definition blob_outage : InMemory.remote InMemory.containers :=
  InMemory.Remote
    {[ "legal-documents" := {[ "lease.txt" := "notice of contract termination" ]} ]}
    [Some 503].

Definition azure_storage_down : azure_world :=
  main.World Sample.fs "2024-05-01T12:00:00" blob_outage
             Sample.search_service [].

End Fixtures.

(* ===================================================================== *)
(** * Properties *)
(* ===================================================================== *)

(** Test vectors of RFC 1321 and two file names. *)
Example md5_empty :
  MD5.hexdigest (Py.encode "") = "d41d8cd98f00b204e9800998ecf8427e".
Proof. vm_compute. reflexivity. Qed.

Example md5_abc :
  MD5.hexdigest (Py.encode "abc") = "900150983cd24fb0d6963f7d28e17f72".
Proof. vm_compute. reflexivity. Qed.

Example md5_message_digest :
  MD5.hexdigest (Py.encode "message digest")
  = "f96b697d7cb7938d525a2f31aaf161d0".
Proof. vm_compute. reflexivity. Qed.

Example md5_two_blocks :
  MD5.hexdigest (Py.encode
    "aaaaaaaaaaaaaaaaaaaaaaaaaaaaaaaaaaaaaaaaaaaaaaaaaaaaaaaaaaaaaaaa")
  = "014842d480b571495a4a0363793f7367".
Proof. vm_compute. reflexivity. Qed.

Example md5_brief_pdf :
  MD5.hexdigest (Py.encode "brief.pdf") = "e61af9f26809a11bf085facded4de49a".
Proof. vm_compute. reflexivity. Qed.

Example splitext_examples :
  Py.splitext "brief.PDF" = ("brief", ".PDF")
  /\ Py.splitext ".bashrc" = (".bashrc", "")
  /\ Py.splitext "a.b/c" = ("a.b/c", "")
  /\ Py.splitext "dir/archive.tar.gz" = ("dir/archive.tar", ".gz")
  /\ Py.splitext "..x.txt" = ("..x", ".txt")
  /\ Py.basename "/tmp/docs/lease.txt" = "lease.txt"
  /\ Py.basename "lease.txt" = "lease.txt"
  /\ Py.join "docs" "a.txt" = "docs/a.txt"
  /\ Py.join "docs/" "a.txt" = "docs/a.txt"
  /\ Py.lower "Brief.PDF" = "brief.pdf"
  /\ Py.endswith "x.txt" ".txt" = true
  /\ Py.endswith "txt" ".txt" = false
  /\ Py.rstrip "/" "https://mock-storage.local//" = "https://mock-storage.local".
Proof. vm_compute. repeat split. Qed.

(** ** Reasoning about computations *)

Lemma bind_ok {W A C} (m : M W A) (k : A -> M W C) w a w' :
  m w = (Ok a, w') -> bind m k w = k a w'.
Proof. intros E. unfold bind. rewrite E. reflexivity. Qed.

Lemma bind_raise {W A C} (m : M W A) (k : A -> M W C) w e w' :
  m w = (Raise e, w') -> bind m k w = (Raise e, w').
Proof. intros E. unfold bind. rewrite E. reflexivity. Qed.

Lemma try_except_never_raises {W A} (body : M W A) (h : exn -> A) w :
  exists a w', try_except body (fun e => ret (h e)) w = (Ok a, w').
Proof.
  unfold try_except, ret. destruct (body w) as [[a|e] w']; eauto.
Qed.

(** A run is known once its answer is: the state is whatever it left. *)
Lemma with_fst {A W} (p : A * W) (a : A) : fst p = a -> p = (a, snd p).
Proof. intros <-. destruct p; reflexivity. Qed.

(* --------------------------------------------------------------------- *)
(** ** The search index adapter *)
(* --------------------------------------------------------------------- *)

Section SearchAdapter.

Import cognitive_search.
Context {B : Type}.
Variable self : DocumentSearchIndex B.

Lemma index_document_eq (d : document) (b : B) :
  index_document self d b =
  if all_required d then
    let '(r, b') := upload_documents (search_client self) [d] b in
    (Ok (acknowledged r), b')
  else (Ok false, b).
Proof.
  unfold index_document, all_required, required_fields, has_key.
  unfold try_except, bind. simpl.
  unfold bind, raise, ret.
  destruct (d !! "id"); simpl; [|reflexivity].
  destruct (d !! "filename"); simpl; [|reflexivity].
  destruct (d !! "content"); simpl; [|reflexivity].
  destruct (upload_documents (search_client self) [d] b) as [[l|e] b'];
    [|reflexivity].
  destruct l as [|r0 l]; [reflexivity|].
  cbn [acknowledged length].
  replace (0 <? Z.of_nat (Datatypes.S (length l))) with true
    by (symmetry; apply Z.ltb_lt; lia).
  destruct (succeeded r0); reflexivity.
Qed.

Lemma sum_ones {X} (l : list X) (z : Z) :
  fold_left Z.add (map (fun _ => 1) l) z = z + Z.of_nat (length l).
Proof.
  revert z. induction l as [|x l IH]; intros z; simpl fold_left.
  - simpl. lia.
  - rewrite IH. simpl length. lia.
Qed.

Lemma index_documents_batch_eq (ds : list document) (b : B) :
  index_documents_batch self ds b =
  match ds with
  | [] => (Ok 0, b)
  | _ =>
    match upload_documents (search_client self) ds b with
    | (Ok rs, b') => (Ok (count_succeeded rs), b')
    | (Raise _, b') => (Ok 0, b')
    end
  end.
Proof.
  unfold index_documents_batch. destruct ds as [|d ds]; [reflexivity|].
  unfold try_except, bind, ret.
  destruct (upload_documents _ _ _) as [[rs|e] b']; [|reflexivity].
  rewrite sum_ones. reflexivity.
Qed.

Lemma index_documents_batch_never_raises (ds : list document) (b : B) :
  exists n b', index_documents_batch self ds b = (Ok n, b')
               /\ 0 <= n.
Proof.
  rewrite index_documents_batch_eq. destruct ds as [|d ds].
  - exists 0, b. split; [reflexivity|lia].
  - destruct (upload_documents _ _ _) as [[rs|e] b'].
    + eexists _, _. split; [reflexivity|]. unfold count_succeeded. lia.
    + exists 0, b'. split; [reflexivity|lia].
Qed.

Lemma fold_append {X} (l acc : list X) :
  fold_left (fun (a : list X) x => (a ++ [x])%list) l acc = (acc ++ l)%list.
Proof.
  revert acc. induction l as [|x l IH]; intros acc; simpl.
  - rewrite app_nil_r. reflexivity.
  - rewrite IH, <- app_assoc. reflexivity.
Qed.

Lemma search_documents_eq query top select filter_expression (b : B) :
  search_documents self query top select filter_expression b =
  match search (search_client self) query top select filter_expression true b
  with
  | (Ok docs, b') => (Ok docs, b')
  | (Raise _, b') => (Ok [], b')
  end.
Proof.
  unfold search_documents, try_except, bind, ret.
  destruct (search _ _ _ _ _ _ _) as [[docs|e] b']; [|reflexivity].
  rewrite fold_append. reflexivity.
Qed.

Lemma get_document_by_id_eq document_id (b : B) :
  get_document_by_id self document_id b =
  match get_document (search_client self) document_id b with
  | (Ok d, b') => (Ok (Some d), b')
  | (Raise _, b') => (Ok None, b')
  end.
Proof.
  unfold get_document_by_id, try_except, bind, ret.
  destruct (get_document _ _ _) as [[d|e] b']; [reflexivity|].
  destruct e; reflexivity.
Qed.

Lemma get_index_statistics_eq (b : B) :
  get_index_statistics self b =
  match get_document_count (search_client self) b with
  | (Ok n, b') =>
    (Ok ({[ "document_count" := VInt n;
            "index_name" := VStr (index_name self) ]} : document), b')
  | (Raise _, b') =>
    (Ok ({[ "document_count" := VInt 0;
            "index_name" := VStr (index_name self) ]} : document), b')
  end.
Proof.
  unfold get_index_statistics, try_except, bind, ret.
  destruct (get_document_count _ _) as [[n|e] b']; reflexivity.
Qed.

End SearchAdapter.

(** C5. A record that lacks one of [id], [filename], [content] makes
    [index_document] return [False] without raising and without any call
    to the backend (the remote state is left as it was, whatever the
    client); a record that has the three fields is submitted as a
    one-document batch and the result is [True] exactly when the
    backend's answer acknowledges its first item as succeeded. *)
Theorem index_document_required_fields {B}
    (self : cognitive_search.DocumentSearchIndex B) (d : document) (b : B) :
  (d !! "id" = None \/ d !! "filename" = None \/ d !! "content" = None ->
   cognitive_search.index_document self d b = (Ok false, b))
  /\
  (is_Some (d !! "id") /\ is_Some (d !! "filename")
   /\ is_Some (d !! "content") ->
   let u := cognitive_search.upload_documents
              (cognitive_search.search_client self) [d] b in
   cognitive_search.index_document self d b = (Ok (acknowledged (fst u)), snd u)).
Proof.
  rewrite index_document_eq. unfold all_required, has_key. split.
  - intros [H | [H | H]]; rewrite H; simpl;
      rewrite ?andb_false_r; reflexivity.
  - intros ([x Hx] & [y Hy] & [z Hz]). rewrite Hx, Hy, Hz. simpl.
    destruct (cognitive_search.upload_documents _ _ _); reflexivity.
Qed.

Lemma index_document_required_fields_witness :
  cognitive_search.index_document Sample.search_index Sample.deed
    Sample.search_service = (Ok false, Sample.search_service)
  /\ fst (cognitive_search.index_document Sample.search_index Sample.lease
            Sample.search_service) = Ok true.
Proof.
  split.
  - apply (index_document_required_fields Sample.search_index Sample.deed).
    right; right. vm_compute. reflexivity.
  - rewrite (proj2 (index_document_required_fields Sample.search_index
                      Sample.lease Sample.search_service)).
    + vm_compute. reflexivity.
    + repeat split; eexists; vm_compute; reflexivity.
Defined.

(** With a client that records what is submitted: a record lacking a
    required field is never among the submissions, and a complete record
    is submitted once, alone. *)
Lemma index_document_submissions {B}
    (self : cognitive_search.DocumentSearchIndex (B * list (list document)))
    (c : cognitive_search.SearchClient B) (d : document) (b : B)
    (log : list (list document)) :
  cognitive_search.search_client self = recording c ->
  snd (snd (cognitive_search.index_document self d (b, log)))
  = if all_required d then (log ++ [[d]])%list else log.
Proof.
  intros Hc. rewrite index_document_eq, Hc.
  destruct (all_required d); [|reflexivity].
  cbn [recording cognitive_search.upload_documents fst snd].
  destruct (cognitive_search.upload_documents c [d] b); reflexivity.
Qed.

(** The batch upsert never raises; it answers the number of items the
    backend acknowledged as succeeded, and [0] when the list is empty or
    the batch call fails. *)
Lemma index_documents_batch_counts {B}
    (self : cognitive_search.DocumentSearchIndex B)
    (ds : list document) (b : B) :
  exists n b',
    cognitive_search.index_documents_batch self ds b = (Ok n, b')
    /\ (ds = [] -> n = 0 /\ b' = b)
    /\ (forall e b1,
          cognitive_search.upload_documents
            (cognitive_search.search_client self) ds b = (Raise e, b1) ->
          n = 0)
    /\ (forall rs b1,
          ds <> [] ->
          cognitive_search.upload_documents
            (cognitive_search.search_client self) ds b = (Ok rs, b1) ->
          n = count_succeeded rs).
Proof.
  rewrite index_documents_batch_eq. destruct ds as [|d ds].
  - exists 0, b. split; [reflexivity|]. split; [tauto|].
    split; [reflexivity|congruence].
  - destruct (cognitive_search.upload_documents _ _ _) as [[rs|e] b1].
    + exists (count_succeeded rs), b1. split; [reflexivity|].
      split; [discriminate|]. split; [discriminate|].
      intros rs' b1' _ [= <- <-]. reflexivity.
    + exists 0, b1. split; [reflexivity|].
      split; [discriminate|]. split; [reflexivity|discriminate].
Qed.

(** C6. The batch path hands every record to the backend as it is: no
    field is checked first.  Against a service that accepts any keyed
    document, a batch of two records, one of them without [content],
    comes back as [2] (the input length, not one less), and the record
    without [content] is stored and can be fetched by id.  The single
    document path refuses that same record. *)
Theorem index_documents_batch_skips_field_check :
  let '(n, service) :=
    cognitive_search.index_documents_batch Sample.search_index
      [Sample.lease; Sample.deed] Sample.search_service in
  has_key Sample.deed "content" = false
  /\ n = Ok 2
  /\ match fst (cognitive_search.get_document_by_id Sample.search_index "2"
                  service) with
     | Ok (Some d) =>
       d !! "filename" = Some (VStr "deed.txt") /\ has_key d "content" = false
     | _ => False
     end
  /\ fst (cognitive_search.index_document Sample.search_index Sample.deed
            Sample.search_service) = Ok false.
Proof. vm_compute. repeat split. Qed.

(** C7. The read operations turn every backend error into an empty
    answer: [search_documents] gives [[]], [get_document_by_id] gives
    [None] for "not found" and for any other error alike, and
    [get_index_statistics] gives a count of [0].  When the backend
    answers, [search_documents] returns its documents, at most [top] of
    them for a backend that honours [top].  Hence an empty result and a
    failure give the same return value. *)
Theorem read_operations_swallow_errors {B}
    (self : cognitive_search.DocumentSearchIndex B) :
  let client := cognitive_search.search_client self in
  (* search *)
  (forall query top select flt b e b',
     cognitive_search.search client query top select flt true b
     = (Raise e, b') ->
     cognitive_search.search_documents self query top select flt b
     = (Ok [], b'))
  /\ (honours_top client ->
      forall query top select flt b,
      exists docs b',
        cognitive_search.search_documents self query top select flt b
        = (Ok docs, b')
        /\ (docs = [] \/ Z.of_nat (length docs) <= top))
  (* get *)
  /\ (forall document_id b e b',
        cognitive_search.get_document client document_id b = (Raise e, b') ->
        cognitive_search.get_document_by_id self document_id b
        = (Ok None, b'))
  (* count *)
  /\ (forall b e b',
        cognitive_search.get_document_count client b = (Raise e, b') ->
        exists stats,
          cognitive_search.get_index_statistics self b = (Ok stats, b')
          /\ stats !! "document_count" = Some (VInt 0))
  (* an empty answer and a failure look the same *)
  /\ (forall query top select flt b1 b1' b2 e b2',
        cognitive_search.search client query top select flt true b1
        = (Ok [], b1') ->
        cognitive_search.search client query top select flt true b2
        = (Raise e, b2') ->
        fst (cognitive_search.search_documents self query top select flt b1)
        = fst (cognitive_search.search_documents self query top select flt b2))
  /\ (forall document_id b1 b1' b2 e b2',
        cognitive_search.get_document client document_id b1
        = (Raise ResourceNotFoundError, b1') ->
        cognitive_search.get_document client document_id b2
        = (Raise e, b2') ->
        fst (cognitive_search.get_document_by_id self document_id b1)
        = fst (cognitive_search.get_document_by_id self document_id b2))
  /\ (forall b1 b1' b2 e b2',
        cognitive_search.get_document_count client b1 = (Ok 0, b1') ->
        cognitive_search.get_document_count client b2 = (Raise e, b2') ->
        fst (cognitive_search.get_index_statistics self b1)
        = fst (cognitive_search.get_index_statistics self b2)).
Proof.
  cbv zeta. repeat split.
  - intros * E. rewrite search_documents_eq, E. reflexivity.
  - intros Htop *. rewrite search_documents_eq.
    destruct (cognitive_search.search _ _ _ _ _ _ _) as [[docs|e] b'] eqn:E.
    + exists docs, b'. split; [reflexivity|]. right. eapply Htop, E.
    + exists [], b'. split; [reflexivity|]. left. reflexivity.
  - intros * E. rewrite get_document_by_id_eq, E. reflexivity.
  - intros * E. rewrite get_index_statistics_eq, E.
    eexists. split; [reflexivity|]. reflexivity.
  - intros * E1 E2. rewrite !search_documents_eq, E1, E2. reflexivity.
  - intros * E1 E2. rewrite !get_document_by_id_eq, E1, E2. reflexivity.
  - intros * E1 E2. rewrite !get_index_statistics_eq, E1, E2. reflexivity.
Qed.

Lemma in_memory_honours_top index_name :
  honours_top (InMemory.search_client index_name).
Proof.
  intros query top select flt itc b docs b'. simpl.
  unfold InMemory.search, InMemory.sdk_call.
  destruct (InMemory.faults b) as [|[e|] rest];
    destruct (InMemory.store b !! index_name) as [ds|]; try discriminate;
    destruct (top <? 0) eqn:Htop; try discriminate;
    intros [= <- _]; apply Z.ltb_ge in Htop;
    rewrite length_take; lia.
Qed.

Lemma read_operations_swallow_errors_witness :
  (* an outage and an empty index answer a search alike *)
  fst (cognitive_search.search_documents Sample.search_index
         "contract termination" 5 None None Sample.search_outage) = Ok []
  /\ fst (cognitive_search.search_documents Sample.search_index
            "contract termination" 5 None None Sample.search_service)
     = fst (cognitive_search.search_documents Sample.search_index
              "contract termination" 5 None None Sample.search_outage)
  /\ fst (cognitive_search.get_document_by_id Sample.search_index "1"
            Sample.search_service)
     = fst (cognitive_search.get_document_by_id Sample.search_index "1"
              Sample.search_outage)
  /\ fst (cognitive_search.get_index_statistics Sample.search_index
            Sample.search_service)
     = fst (cognitive_search.get_index_statistics Sample.search_index
              Sample.search_outage)
  /\ (exists docs b',
        cognitive_search.search_documents Sample.search_index
          "contract termination" 5 None None Sample.search_service
        = (Ok docs, b')
        /\ (docs = [] \/ Z.of_nat (length docs) <= 5)).
Proof.
  pose proof (read_operations_swallow_errors Sample.search_index)
    as (Hs & Htop & Hg & Hc & Is & Ig & Ic).
  split; [|split; [|split; [|split]]].
  - erewrite Hs; [reflexivity|]. apply with_fst. vm_compute. reflexivity.
  - eapply Is; apply with_fst; vm_compute; reflexivity.
  - eapply Ig; apply with_fst; vm_compute; reflexivity.
  - eapply Ic; apply with_fst; vm_compute; reflexivity.
  - apply Htop. apply in_memory_honours_top.
Defined.


(* --------------------------------------------------------------------- *)
(** ** Text extraction *)
(* --------------------------------------------------------------------- *)

Lemma _extract_text_content_ok fs file_path :
  main._extract_text_content fs file_path = Ok (extracted fs file_path).
Proof.
  unfold extracted, main._extract_text_content.
  destruct (_ || _).
  - destruct (os.read_text fs file_path); reflexivity.
  - destruct (Py.endswith _ ".pdf"); reflexivity.
Qed.

Lemma universal_newlines_without_cr (l : list ascii) :
  os.CR ∉ l -> os.universal_newlines l = l.
Proof.
  induction l as [|c l IH]; intros Hcr; [reflexivity|].
  simpl. destruct (Ascii.eqb c os.CR) eqn:E.
  - apply Ascii.eqb_eq in E. subst c. exfalso. apply Hcr. left.
  - f_equal. apply IH. intros Hin. apply Hcr. right. exact Hin.
Qed.

Lemma without_char (c : ascii) (l : list ascii) :
  existsb (Ascii.eqb c) l = false -> c ∉ l.
Proof.
  induction l as [|x l IH]; simpl; intros H Hin.
  - inversion Hin.
  - apply orb_false_iff in H as [Hx Hl].
    apply list_elem_of_In in Hin. destruct Hin as [->|Hin].
    + rewrite Ascii.eqb_refl in Hx. discriminate.
    + apply (IH Hl). apply list_elem_of_In. exact Hin.
Qed.

(* --------------------------------------------------------------------- *)
(** ** One file's ingestion *)
(* --------------------------------------------------------------------- *)

Section Ingestion.

Import main.
Context {S B : Type}.
Variable storage : Storage S.
Variable search_index : SearchIndexObject B.

Ltac run_ingest :=
  cbv beta iota zeta delta
    [upload_and_index_document try_except bind in_stage mark with_fs
     on_storage on_search lift utcnow_isoformat ret
     w_fs w_clock w_storage w_search w_trace].

(** The whole run, call by call: which call decides the outcome, what it
    leaves behind the two objects, and which marks are left. *)
Lemma upload_and_index_document_eq file_path summary keywords fs clock s b tr :
  upload_and_index_document storage search_index file_path summary keywords
    (World fs clock s b tr) =
  match upload_document storage fs file_path None s with
  | (Raise _, s1) =>
    (Ok false, World fs clock s1 b (tr ++ take 1 (stages file_path)))
  | (Ok blob_name, s1) =>
    match os.getsize fs file_path with
    | Raise _ =>
      (Ok false, World fs clock s1 b (tr ++ take 2 (stages file_path)))
    | Ok file_size =>
      match get_document_url storage blob_name s1 with
      | (Raise _, s2) =>
        (Ok false, World fs clock s2 b (tr ++ take 4 (stages file_path)))
      | (Ok url, s2) =>
        match index_document search_index
                (document_data file_path summary keywords file_size
                   (extracted fs file_path) clock url) b with
        | (Raise _, b1) =>
          (Ok false, World fs clock s2 b1 (tr ++ take 5 (stages file_path)))
        | (Ok ok, b1) =>
          (Ok ok, World fs clock s2 b1 (tr ++ stages file_path))
        end
      end
    end
  end.
Proof.
  run_ingest.
  destruct (upload_document storage fs file_path None s) as [[blob|e] s1];
    [|reflexivity].
  destruct (os.getsize fs file_path) as [n|e];
    [|simpl; rewrite <- app_assoc; reflexivity].
  rewrite _extract_text_content_ok.
  destruct (get_document_url storage blob s1) as [[url|e] s2];
    [|simpl; rewrite <- !app_assoc; reflexivity].
  fold (document_data file_path summary keywords n (extracted fs file_path)
          clock url).
  destruct (index_document search_index _ b) as [[ok|e] b1].
  - destruct ok; simpl; rewrite <- !app_assoc; reflexivity.
  - simpl; rewrite <- !app_assoc; reflexivity.
Qed.


End Ingestion.




(* --------------------------------------------------------------------- *)
(** ** A directory's ingestion *)
(* --------------------------------------------------------------------- *)




Section Directory.

Import main.
Context {S B : Type}.
Variable storage : Storage S.
Variable search_index : SearchIndexObject B.
Variable directory_path : string.

(** The body of the loop of [upload_and_index_directory]. *)
Let body (filename : string) (results : gmap string Z)
  : M (world S B) (gmap string Z) :=
  do is_file <- with_fs (fun fs =>
                  ret (os.isfile fs (Py.join directory_path filename))) ;;
  if negb is_file then ret results
  else
    if negb (str_in (Py.lower (snd (Py.splitext filename)))
                    supported_extensions)
    then ret (incr "skipped" results)
    else
      do ok <- upload_and_index_document storage search_index
                 (Py.join directory_path filename) None None ;;
      if ok then ret (incr "successful" results)
      else ret (incr "failed" results).


Lemma upload_and_index_directory_eq (w : world S B) :
  upload_and_index_directory storage search_index directory_path w =
  match w_fs w !! directory_path with
  | None =>
    (Raise (FileNotFoundError ("Directory not found: " ++ directory_path)), w)
  | Some (File _ _) => (Raise NotADirectoryError, w)
  | Some (Dir names _) =>
    for_each names body
      {[ "successful" := 0; "failed" := 0; "skipped" := 0 ]} w
  end.
Proof.
  unfold upload_and_index_directory, os.exists_, os.listdir.
  unfold bind at 1, with_fs at 1, ret at 1.
  destruct (w_fs w !! directory_path) as [[data r|names sz]|] eqn:E;
    cbn [negb].
  - unfold bind, with_fs, lift. rewrite E. reflexivity.
  - unfold bind at 1, with_fs at 1, lift at 1. rewrite E. reflexivity.
  - reflexivity.
Qed.

End Directory.



(* --------------------------------------------------------------------- *)
(** ** Extraction within the ingestion *)
(* --------------------------------------------------------------------- *)

(** C3 as the specification words it, refuted on a file: [memo.txt] holds
    valid UTF-8 with a CR LF line ending; what is extracted is not the
    file's text as it stands, the line ending has become a single LF. *)
Lemma extraction_is_not_verbatim :
  os.read_bytes Sample.memo_fs "memo.txt" = Ok Sample.crlf_text
  /\ os.utf8_valid (Py.encode Sample.crlf_text) = true
  /\ main._extract_text_content Sample.memo_fs "memo.txt"
     = Ok Sample.lf_text
  /\ main._extract_text_content Sample.memo_fs "memo.txt"
     <> Ok Sample.crlf_text.
Proof. vm_compute. repeat split. discriminate. Qed.

(** C3, amended.  [_extract_text_content] always returns a text and never
    raises.  For a path ending in [.txt] or [.md] (case-insensitively)
    it is the file's content decoded as UTF-8 in text mode, that is with
    every CR LF and every lone CR turned into LF, and otherwise as it
    stands (a content without CR is returned verbatim); if the file
    cannot be read or decoded it is the error placeholder naming the
    file.  For a path ending in [.pdf] it is the PDF placeholder, for any
    other path the unsupported-type placeholder, both naming the file.
    Extraction never marks a file failed: once the upload, the size and
    the URL calls have returned, the record carrying the extracted text,
    placeholder or not, is handed to the index, and the ingestion answers
    what the index write answers. *)
Theorem extraction_total_and_non_fatal (fs : filesystem) (file_path : string) :
  let low := Py.lower file_path in
  let name := Py.basename file_path in
  let text := Py.endswith low ".txt" || Py.endswith low ".md" in
  (exists s, main._extract_text_content fs file_path = Ok s)
  /\ (text = true ->
      (forall data,
         os.read_bytes fs file_path = Ok data ->
         os.utf8_valid (Py.encode data) = true ->
         main._extract_text_content fs file_path
         = Ok (Py.str (os.universal_newlines (Py.chars data)))
         /\ (os.CR ∉ Py.chars data ->
             main._extract_text_content fs file_path = Ok data))
      /\ (forall e,
            os.read_text fs file_path = Raise e ->
            main._extract_text_content fs file_path
            = Ok ("Error extracting content from " ++ name)))
  /\ (text = false -> Py.endswith low ".pdf" = true ->
      main._extract_text_content fs file_path
      = Ok ("PDF content from " ++ name
            ++ " - Content extraction not implemented yet"))
  /\ (text = false -> Py.endswith low ".pdf" = false ->
      main._extract_text_content fs file_path
      = Ok ("Content from " ++ name
            ++ " - File type not supported for text extraction"))
  /\ (forall S B (storage : main.Storage S)
        (search_index : main.SearchIndexObject B) summary keywords
        clock s b tr blob_name s1 file_size url s2,
        main.upload_document storage fs file_path None s = (Ok blob_name, s1) ->
        os.getsize fs file_path = Ok file_size ->
        main.get_document_url storage blob_name s1 = (Ok url, s2) ->
        let d := document_data file_path summary keywords file_size
                   (extracted fs file_path) clock url in
        d !! "content" = Some (VStr (extracted fs file_path))
        /\ exists w',
            main.upload_and_index_document storage search_index file_path
              summary keywords (main.World fs clock s b tr)
            = (Ok match fst (main.index_document search_index d b) with
                  | Ok ok => ok
                  | Raise _ => false
                  end, w')
            /\ main.w_search w' = snd (main.index_document search_index d b)).
Proof.
  cbv zeta. split; [|split; [|split; [|split]]].
  - eexists. apply _extract_text_content_ok.
  - intros Ht. unfold main._extract_text_content. rewrite Ht. split.
    + intros data Hread Hvalid. unfold os.read_text.
      rewrite Hread, Hvalid. split; [reflexivity|].
      intros Hcr. rewrite universal_newlines_without_cr by exact Hcr.
      unfold Py.str, Py.chars. rewrite string_of_list_ascii_of_string.
      reflexivity.
    + intros e He. rewrite He. reflexivity.
  - intros Ht Hp. unfold main._extract_text_content. rewrite Ht, Hp.
    reflexivity.
  - intros Ht Hp. unfold main._extract_text_content. rewrite Ht, Hp.
    reflexivity.
  - intros S B storage search_index summary keywords clock s b tr blob_name
      s1 file_size url s2 Hup Hsz Hurl. split; [reflexivity|].
    rewrite upload_and_index_document_eq, Hup, Hsz, Hurl.
    destruct (main.index_document _ _ _) as [[ok|e] b1];
      eexists; split; reflexivity.
Qed.

Lemma extraction_total_and_non_fatal_witness :
  main._extract_text_content Sample.memo_fs "sealed.md"
  = Ok "Error extracting content from sealed.md"
  /\ main._extract_text_content Sample.memo_fs "latin1.txt"
     = Ok "Error extracting content from latin1.txt"
  /\ main._extract_text_content Sample.fs "docs/lease.txt"
     = Ok "notice of contract termination"
  /\ main._extract_text_content Sample.fs "docs/brief.pdf"
     = Ok "PDF content from brief.pdf - Content extraction not implemented yet"
  /\ main._extract_text_content Sample.fs "docs/notes.exe"
     = Ok "Content from notes.exe - File type not supported for text extraction"
  /\ fst (Sample.ingest "docs/brief.pdf" Sample.world0) = Ok true.
Proof.
  split; [|split; [|split; [|split; [|split]]]].
  - apply (extraction_total_and_non_fatal Sample.memo_fs "sealed.md")
      with (e := PermissionError); vm_compute; reflexivity.
  - apply (extraction_total_and_non_fatal Sample.memo_fs "latin1.txt")
      with (e := UnicodeDecodeError); vm_compute; reflexivity.
  - apply (extraction_total_and_non_fatal Sample.fs "docs/lease.txt");
      try (vm_compute; reflexivity).
    apply without_char. vm_compute. reflexivity.
  - apply (extraction_total_and_non_fatal Sample.fs "docs/brief.pdf");
      vm_compute; reflexivity.
  - apply (extraction_total_and_non_fatal Sample.fs "docs/notes.exe");
      vm_compute; reflexivity.
  - destruct (extraction_total_and_non_fatal Sample.fs "docs/brief.pdf")
      as (_ & _ & _ & _ & H).
    set (s1 := snd (mock_storage.upload_document Sample.fs "docs/brief.pdf"
                      None Sample.mock)).
    set (s2 := snd (mock_storage.get_document_url "brief.pdf" s1)).
    assert (Hup : main.upload_document main.mock_storage Sample.fs
                    "docs/brief.pdf" None Sample.mock = (Ok "brief.pdf", s1))
      by (apply with_fst; vm_compute; reflexivity).
    assert (Hsz : os.getsize Sample.fs "docs/brief.pdf" = Ok 8)
      by (vm_compute; reflexivity).
    assert (Hurl : main.get_document_url main.mock_storage "brief.pdf" s1
                   = (Ok "https://mock-storage.local/brief.pdf", s2))
      by (apply with_fst; vm_compute; reflexivity).
    destruct (H _ _ main.mock_storage
                (main.azure_search_index Sample.search_index) None None
                "2024-05-01T12:00:00" Sample.mock Sample.search_service []
                _ _ _ _ _ Hup Hsz Hurl)
      as (_ & w' & E & _).
    unfold Sample.ingest, Sample.world0. rewrite E.
    vm_compute. reflexivity.
Defined.

(* --------------------------------------------------------------------- *)
(** ** Document ids and re-ingestion *)
(* --------------------------------------------------------------------- *)

Lemma upload_and_index_document_true {S B} (storage : main.Storage S)
    (search_index : main.SearchIndexObject B) file_path summary keywords
    (w w' : main.world S B) :
  main.upload_and_index_document storage search_index file_path summary
    keywords w = (Ok true, w') ->
  exists file_size url,
    main.index_document search_index
      (document_data file_path summary keywords file_size
         (extracted (main.w_fs w) file_path) (main.w_clock w) url)
      (main.w_search w)
    = (Ok true, main.w_search w').
Proof.
  destruct w as [fs clock s b tr]. rewrite upload_and_index_document_eq.
  cbn [main.w_fs main.w_clock main.w_search].
  destruct (main.upload_document _ _ _ _ _) as [[blob|e] s1];
    [|discriminate].
  destruct (os.getsize _ _) as [n|e]; [|discriminate].
  destruct (main.get_document_url _ _ _) as [[url|e] s2]; [|discriminate].
  destruct (main.index_document _ _ _) as [[ok|e] b1] eqn:E; [|discriminate].
  intros [= -> <-]. exists n, url. exact E.
Qed.

(** A successful single upsert into the in-memory service stores the
    record under its key, replacing what was there. *)
Lemma in_memory_index_document_true index_name (d : document) b b1 :
  cognitive_search.index_document
    (InMemory.document_search_index index_name) d b = (Ok true, b1) ->
  exists docs k,
    InMemory.store b !! index_name = Some docs
    /\ InMemory.doc_key d = Some k
    /\ InMemory.store b1 = <[ index_name := <[ k := d ]> docs ]> (InMemory.store b).
Proof.
  rewrite index_document_eq. destruct (all_required d); [|discriminate].
  cbn [cognitive_search.search_client InMemory.document_search_index
       cognitive_search.upload_documents InMemory.search_client].
  unfold InMemory.upload_documents, InMemory.sdk_call.
  destruct (InMemory.faults b) as [|[e|] rest]; try discriminate;
    (destruct (InMemory.store b !! index_name) as [docs|] eqn:Ei;
       [|discriminate]);
    cbn [InMemory.all_keyed forallb];
    (destruct (InMemory.doc_key d) as [k|] eqn:Ek; [|discriminate]);
    cbn [andb fold_left]; unfold InMemory.upsert; rewrite Ek;
    intros [= <-]; exists docs, k; auto.
Qed.

Lemma doc_key_document_data file_path summary keywords n content now url :
  InMemory.doc_key
    (document_data file_path summary keywords n content now url)
  = Some (main._generate_document_id (Py.basename file_path)).
Proof. reflexivity. Qed.

(** C1. The document id is the MD5 hex digest of the file name and of
    nothing else.  Two ingestions of paths with the same base name that
    both succeed against the same index, whatever the files hold and
    whatever the storage object is, write under the same id: the second
    record takes the place of the first, and the index has as many
    records after the second ingestion as after the first. *)
Theorem document_id_depends_on_filename_only :
  (forall filename,
     main._generate_document_id filename = MD5.hexdigest (Py.encode filename))
  /\ main._generate_document_id "brief.pdf"
     = "e61af9f26809a11bf085facded4de49a"
  /\ (forall S (storage : main.Storage S) index_name
        path1 path2 summary1 keywords1 summary2 keywords2
        (w1 w1' w2 w2' : main.world S (InMemory.remote InMemory.indexes)),
        let search_index :=
          main.azure_search_index (InMemory.document_search_index index_name)
        in
        let id := main._generate_document_id (Py.basename path1) in
        Py.basename path1 = Py.basename path2 ->
        main.upload_and_index_document storage search_index path1 summary1
          keywords1 w1 = (Ok true, w1') ->
        main.w_search w2 = main.w_search w1' ->
        main.upload_and_index_document storage search_index path2 summary2
          keywords2 w2 = (Ok true, w2') ->
        exists docs1 docs2 d1 d2,
          InMemory.store (main.w_search w1') !! index_name = Some docs1
          /\ InMemory.store (main.w_search w2') !! index_name = Some docs2
          /\ d1 !! "id" = Some (VStr id) /\ d2 !! "id" = Some (VStr id)
          /\ d1 !! "content" = Some (VStr (extracted (main.w_fs w1) path1))
          /\ d2 !! "content" = Some (VStr (extracted (main.w_fs w2) path2))
          /\ docs1 !! id = Some d1
          /\ docs2 = <[ id := d2 ]> docs1
          /\ dom docs2 = dom docs1
          /\ size docs2 = size docs1).
Proof.
  split; [reflexivity|]. split; [vm_compute; reflexivity|].
  intros S storage index_name path1 path2 summary1 keywords1 summary2
    keywords2 w1 w1' w2 w2' search_index id Hname H1 Hsame H2.
  subst search_index id.
  apply upload_and_index_document_true in H1 as (n1 & url1 & H1).
  apply upload_and_index_document_true in H2 as (n2 & url2 & H2).
  apply in_memory_index_document_true in H1 as (docs0 & k1 & L0 & K1 & St1).
  apply in_memory_index_document_true in H2 as (docs1 & k2 & L1 & K2 & St2).
  rewrite doc_key_document_data in K1, K2.
  injection K1 as <-. injection K2 as <-.
  rewrite Hsame, St1, lookup_insert_eq in L1. injection L1 as <-.
  rewrite <- Hname in St2.
  set (id := main._generate_document_id (Py.basename path1)) in *.
  set (d1 := document_data path1 summary1 keywords1 n1
               (extracted (main.w_fs w1) path1) (main.w_clock w1) url1) in *.
  set (d2 := document_data path2 summary2 keywords2 n2
               (extracted (main.w_fs w2) path2) (main.w_clock w2) url2) in *.
  exists (<[ id := d1 ]> docs0), (<[ id := d2 ]> (<[ id := d1 ]> docs0)), d1, d2.
  split; [rewrite St1; apply lookup_insert_eq|].
  split; [rewrite St2; apply lookup_insert_eq|].
  split; [reflexivity|].
  split; [subst d2 id; rewrite Hname; reflexivity|].
  split; [reflexivity|]. split; [reflexivity|].
  split; [apply lookup_insert_eq|]. split; [reflexivity|].
  assert (Hdom : dom (<[ id := d2 ]> (<[ id := d1 ]> docs0))
                 = dom (<[ id := d1 ]> docs0)).
  { rewrite (dom_insert_L (<[ id := d1 ]> docs0)).
    apply subseteq_union_1_L, singleton_subseteq_l.
    rewrite dom_insert_L. apply elem_of_union_l, elem_of_singleton.
    reflexivity. }
  split; [exact Hdom|].
  rewrite <- !size_dom, Hdom. reflexivity.
Qed.


Lemma document_id_depends_on_filename_only_witness :
  let w1' := snd (Sample.ingest "docs/lease.txt" Sample.world0) in
  let w2 := Sample.world_later (main.w_search w1') in
  let w2' := snd (Sample.ingest "inbox/lease.txt" w2) in
  let id := main._generate_document_id (Py.basename "docs/lease.txt") in
  exists docs1 docs2 d1 d2,
    InMemory.store (main.w_search w1') !! Sample.index_name = Some docs1
    /\ InMemory.store (main.w_search w2') !! Sample.index_name = Some docs2
    /\ d1 !! "id" = Some (VStr id) /\ d2 !! "id" = Some (VStr id)
    /\ d1 !! "content"
       = Some (VStr (extracted (main.w_fs Sample.world0) "docs/lease.txt"))
    /\ d2 !! "content"
       = Some (VStr (extracted (main.w_fs w2) "inbox/lease.txt"))
    /\ docs1 !! id = Some d1
    /\ docs2 = <[ id := d2 ]> docs1
    /\ dom docs2 = dom docs1
    /\ size docs2 = size docs1.
Proof.
  intros w1' w2 w2' id.
  apply (proj2 (proj2 document_id_depends_on_filename_only)
           _ main.mock_storage Sample.index_name
           "docs/lease.txt" "inbox/lease.txt" None None None None
           Sample.world0 w1' w2 w2').
  - vm_compute. reflexivity.
  - subst w1'. unfold Sample.ingest, Sample.search_index.
    apply with_fst. vm_compute. reflexivity.
  - reflexivity.
  - subst w2'. unfold Sample.ingest, Sample.search_index.
    apply with_fst. vm_compute. reflexivity.
Defined.

(** The same two ingestions, computed: one record after the first, one
    record after the second, holding the second file's text. *)
Example reingestion_keeps_one_record :
  let w1' := snd (Sample.ingest "docs/lease.txt" Sample.world0) in
  let w2' := snd (Sample.ingest "inbox/lease.txt"
                    (Sample.world_later (main.w_search w1'))) in
  let records (w : Sample.world) :=
    match InMemory.store (main.w_search w) !! Sample.index_name with
    | Some docs => map (fun kd => (fst kd, snd kd !! "content"))
                       (map_to_list docs)
    | None => []
    end in
  records w1' = [("21df62ad34b1c539a736780f2eae923b",
                  Some (VStr "notice of contract termination"))]
  /\ records w2' = [("21df62ad34b1c539a736780f2eae923b",
                     Some (VStr "a new lease, signed in May"))].
Proof. vm_compute. split; reflexivity. Qed.

(* --------------------------------------------------------------------- *)
(** ** Creating the container and the index *)
(* --------------------------------------------------------------------- *)

(** What [_ensure_container_exists] does with the answer of the one call
    it makes. *)
Lemma _ensure_container_exists_eq {R} (self : blob_storage.DocumentStorage R)
    (r : R) :
  blob_storage._ensure_container_exists self r =
  match blob_storage.create_container (blob_storage.blob_service_client self)
          (blob_storage.container_name self) r with
  | (Ok tt, r') => (Ok tt, r')
  | (Raise ResourceExistsError, r') => (Ok tt, r')
  | (Raise e, r') => (Raise e, r')
  end.
Proof.
  unfold blob_storage._ensure_container_exists, try_except, ret, raise.
  destruct (blob_storage.create_container _ _ _) as [[[]|e] r'];
    [reflexivity|destruct e; reflexivity].
Qed.

Lemma _ensure_index_exists_eq {B}
    (index_client : cognitive_search.SearchIndexClient B)
    (index_name : string) (b : B) :
  cognitive_search._ensure_index_exists index_client index_name b =
  match cognitive_search.create_index index_client
          (cognitive_search._create_search_index index_name) b with
  | (Ok tt, b') => (Ok tt, b')
  | (Raise ResourceExistsError, b') => (Ok tt, b')
  | (Raise e, b') => (Raise e, b')
  end.
Proof.
  unfold cognitive_search._ensure_index_exists, try_except, bind, ret, raise.
  destruct (cognitive_search.create_index _ _ _) as [[[]|e] b'];
    [reflexivity|destruct e; reflexivity].
Qed.

(** The in-memory service under [_ensure_container_exists]: a scripted
    fault is raised; otherwise the container is created if it is missing
    and the call returns. *)
Lemma in_memory_ensure_container c (r : InMemory.remote InMemory.containers) :
  blob_storage._ensure_container_exists (InMemory.document_storage c) r =
  match InMemory.next_fault r with
  | Some status =>
    (Raise (HttpResponseError status),
     InMemory.Remote (InMemory.store r) (tail (InMemory.faults r)))
  | None =>
    (Ok tt,
     InMemory.Remote
       (match InMemory.store r !! c with
        | Some _ => InMemory.store r
        | None => <[ c := ∅ ]> (InMemory.store r)
        end)
       (tail (InMemory.faults r)))
  end.
Proof.
  rewrite _ensure_container_exists_eq.
  cbn [InMemory.document_storage blob_storage.blob_service_client
       blob_storage.container_name InMemory.blob_service_client
       blob_storage.create_container].
  unfold InMemory.create_container, InMemory.sdk_call, InMemory.next_fault.
  destruct (InMemory.faults r) as [|[status|] rest];
    destruct (InMemory.store r !! c); reflexivity.
Qed.

Lemma in_memory_ensure_index index_name
    (b : InMemory.remote InMemory.indexes) :
  cognitive_search._ensure_index_exists InMemory.index_client index_name b =
  match InMemory.next_fault b with
  | Some status =>
    (Raise (HttpResponseError status),
     InMemory.Remote (InMemory.store b) (tail (InMemory.faults b)))
  | None =>
    (Ok tt,
     InMemory.Remote
       (match InMemory.store b !! index_name with
        | Some _ => InMemory.store b
        | None => <[ index_name := ∅ ]> (InMemory.store b)
        end)
       (tail (InMemory.faults b)))
  end.
Proof.
  rewrite _ensure_index_exists_eq.
  cbn [InMemory.index_client cognitive_search.create_index
       cognitive_search._create_search_index cognitive_search.name].
  unfold InMemory.create_index, InMemory.sdk_call, InMemory.next_fault.
  change (cognitive_search.name
            (cognitive_search._create_search_index index_name))
    with index_name.
  destruct (InMemory.faults b) as [|[status|] rest];
    destruct (InMemory.store b !! index_name); reflexivity.
Qed.

(** Two calls in a row on a keyed store that is created when missing. *)
Lemma ensure_twice {V} (k : string) (r r1 r2 : InMemory.remote (gmap string V))
    (a : result unit) (run : M (InMemory.remote (gmap string V)) unit) (v : V) :
  (forall x,
     run x =
     match InMemory.next_fault x with
     | Some status =>
       (Raise (HttpResponseError status),
        InMemory.Remote (InMemory.store x) (tail (InMemory.faults x)))
     | None =>
       (Ok tt,
        InMemory.Remote
          (match InMemory.store x !! k with
           | Some _ => InMemory.store x
           | None => <[ k := v ]> (InMemory.store x)
           end)
          (tail (InMemory.faults x)))
     end) ->
  run r = (Ok tt, r1) ->
  run r1 = (a, r2) ->
  InMemory.store r2 = InMemory.store r1
  /\ is_Some (InMemory.store r1 !! k)
  /\ (InMemory.next_fault r1 = None -> a = Ok tt).
Proof.
  intros Hrun H1 H2. rewrite Hrun in H1, H2.
  assert (Hk : is_Some (InMemory.store r1 !! k)).
  { destruct (InMemory.next_fault r); [discriminate|].
    injection H1 as <-. cbn [InMemory.store].
    destruct (InMemory.store r !! k) eqn:Ek.
    - rewrite Ek. eauto.
    - rewrite lookup_insert_eq. eauto. }
  destruct Hk as [x Hk]. rewrite Hk in H2.
  destruct (InMemory.next_fault r1); injection H2 as <- <-.
  - split; [reflexivity|]. split; [eauto|discriminate].
  - split; [reflexivity|]. split; [eauto|reflexivity].
Qed.

(** C8.  Both "ensure" operations make one creation call and take the
    backend's "already exists" answer for success, whatever the client;
    no other call is made, so the remote state is the one that call left.
    Against the in-memory service: once a first call has returned, a
    second call in a row that meets no transport fault returns as well,
    and in every case it leaves the blobs of the container and the
    documents of the index exactly as they were. *)
Theorem ensure_is_idempotent :
  (forall R (self : blob_storage.DocumentStorage R) r r',
     blob_storage.create_container (blob_storage.blob_service_client self)
       (blob_storage.container_name self) r = (Raise ResourceExistsError, r')
     -> blob_storage._ensure_container_exists self r = (Ok tt, r'))
  /\ (forall B (index_client : cognitive_search.SearchIndexClient B)
        index_name b b',
        cognitive_search.create_index index_client
          (cognitive_search._create_search_index index_name) b
        = (Raise ResourceExistsError, b')
        -> cognitive_search._ensure_index_exists index_client index_name b
           = (Ok tt, b'))
  /\ (forall c r r1 r2 a,
        let self := InMemory.document_storage c in
        blob_storage._ensure_container_exists self r = (Ok tt, r1) ->
        blob_storage._ensure_container_exists self r1 = (a, r2) ->
        InMemory.store r2 = InMemory.store r1
        /\ is_Some (InMemory.store r1 !! c)
        /\ (InMemory.next_fault r1 = None -> a = Ok tt))
  /\ (forall index_name b b1 b2 a,
        cognitive_search._ensure_index_exists InMemory.index_client
          index_name b = (Ok tt, b1) ->
        cognitive_search._ensure_index_exists InMemory.index_client
          index_name b1 = (a, b2) ->
        InMemory.store b2 = InMemory.store b1
        /\ is_Some (InMemory.store b1 !! index_name)
        /\ (InMemory.next_fault b1 = None -> a = Ok tt)).
Proof.
  split; [|split; [|split]].
  - intros R self r r' E. rewrite _ensure_container_exists_eq, E.
    reflexivity.
  - intros B index_client index_name b b' E.
    rewrite _ensure_index_exists_eq, E. reflexivity.
  - intros c r r1 r2 a self. subst self.
    apply (ensure_twice c r r1 r2 a _ ∅).
    apply in_memory_ensure_container.
  - intros index_name b b1 b2 a.
    apply (ensure_twice index_name b b1 b2 a _ ∅).
    apply in_memory_ensure_index.
Qed.

Lemma ensure_is_idempotent_witness :
  (let r1 := snd (blob_storage._ensure_container_exists Sample.storage
                    Sample.blob_service) in
   let r2 := snd (blob_storage._ensure_container_exists Sample.storage r1) in
   fst (blob_storage._ensure_container_exists Sample.storage r1) = Ok tt
   /\ InMemory.store r2 = InMemory.store r1)
  /\
  (let b1 := snd (cognitive_search._ensure_index_exists InMemory.index_client
                    Sample.index_name Sample.search_service) in
   let b2 := snd (cognitive_search._ensure_index_exists InMemory.index_client
                    Sample.index_name b1) in
   fst (cognitive_search._ensure_index_exists InMemory.index_client
          Sample.index_name b1) = Ok tt
   /\ InMemory.store b2 = InMemory.store b1).
Proof.
  destruct ensure_is_idempotent as (_ & _ & Hc & Hi).
  split.
  - intros r1 r2.
    destruct (Hc "legal-documents" Sample.blob_service r1 r2
                (fst (blob_storage._ensure_container_exists Sample.storage r1)))
      as (Hstore & _ & Hok).
    + apply with_fst. vm_compute. reflexivity.
    + apply with_fst. reflexivity.
    + split; [apply Hok; vm_compute; reflexivity|exact Hstore].
  - intros b1 b2.
    destruct (Hi Sample.index_name Sample.search_service b1 b2
                (fst (cognitive_search._ensure_index_exists
                        InMemory.index_client Sample.index_name b1)))
      as (Hstore & _ & Hok).
    + apply with_fst. vm_compute. reflexivity.
    + apply with_fst. reflexivity.
    + split; [apply Hok; vm_compute; reflexivity|exact Hstore].
Defined.

(* --------------------------------------------------------------------- *)
(** ** The mock storage against the real adapter *)
(* --------------------------------------------------------------------- *)

Lemma mock_upload_document_regular fs path self :
  os.isfile fs path = true ->
  exists self',
    mock_storage.upload_document fs path None self
    = (Ok (Py.basename path), self').
Proof.
  unfold os.isfile, mock_storage.upload_document, os.exists_.
  destruct (fs !! path) as [[data r|names sz]|]; try discriminate.
  intros _. cbn [negb].
  destruct (negb (str_in _ _)); eauto.
Qed.

(** The mock's directory upload takes every regular file among the
    children, whatever its extension. *)
Lemma mock_upload_directory_takes_all fs directory_path names sz self :
  fs !! directory_path = Some (Dir names sz) ->
  fst (mock_storage.upload_documents_from_directory fs directory_path self)
  = Ok (map (fun n => Py.basename (Py.join directory_path n))
            (regular_files fs directory_path names)).
Proof.
  intros Hdir. unfold mock_storage.upload_documents_from_directory.
  unfold os.isdir, os.listdir. rewrite Hdir. cbn [negb].
  unfold bind at 1, lift at 1.
  change (map _ (regular_files fs directory_path names))
    with ([] ++ map (fun n => Py.basename (Py.join directory_path n))
                  (regular_files fs directory_path names))%list.
  match goal with |- context [for_each names ?f] => set (body := f) end.
  generalize (@nil string) as uploaded. revert self. clear Hdir.
  induction names as [|n names IH]; intros self uploaded.
  - simpl. rewrite app_nil_r. reflexivity.
  - cbn [for_each regular_files List.filter]. unfold bind at 1.
    fold (regular_files fs directory_path names).
    unfold body at 1.
    destruct (os.isfile fs (Py.join directory_path n)) eqn:Efile.
    + destruct (mock_upload_document_regular fs _ self Efile) as [self' E].
      unfold try_except at 1, bind at 1. rewrite E. unfold ret at 1.
      rewrite IH. cbn [map]. rewrite <- app_assoc. reflexivity.
    + unfold ret at 1. apply IH.
Qed.



(** C9.  On the directory [docs] (two supported files, [notes.exe] and a
    subdirectory) the real adapter uploads the two supported files and
    skips [notes.exe]; the mock, which has no extension check, uploads
    [notes.exe] as well.  Both skip the subdirectory and neither
    raises. *)
Theorem mock_directory_upload_lacks_extension_filter :
  supported "notes.exe" = false
  /\ os.isfile Sample.fs "docs/notes.exe" = true
  /\ fst (blob_storage.upload_documents_from_directory Sample.storage
            Sample.fs "docs" Sample.blob_service)
     = Ok ["lease.txt"; "brief.pdf"]
  /\ fst (mock_storage.upload_documents_from_directory Sample.fs "docs"
            Sample.mock)
     = Ok ["lease.txt"; "brief.pdf"; "notes.exe"].
Proof. vm_compute. repeat split. Qed.

(* --------------------------------------------------------------------- *)
(** ** Constructing the chatbot *)
(* --------------------------------------------------------------------- *)

(** C10.  [LegalDocumentChatbot.__init__] raises the search
    configuration error whenever the search endpoint or the API key is
    missing or empty, whether or not objects are injected, and before any
    remote call.  With a storage object injected the storage settings are
    not looked at: given the search settings, the constructor returns the
    chatbot when a search index is injected too, and otherwise does what
    building the [DocumentSearchIndex] does. *)
Theorem constructor_requires_search_configuration {SO IO R B}
    (from_connection_string
       : string -> result (blob_storage.BlobServiceClient R))
    (new_index_client
       : string -> string -> cognitive_search.SearchIndexClient B)
    (new_search_client
       : string -> string -> string -> cognitive_search.SearchClient B)
    (cfg : config.Config) (w : R * B) :
  let init := main.__init__ (SO := SO) (IO := IO) from_connection_string
                new_index_client new_search_client cfg in
  (config.validate_search_config cfg = false ->
   forall storage search_index,
     init storage search_index w
     = (Raise (ValueError "Azure Cognitive Search configuration missing. Set AZURE_SEARCH_SERVICE_ENDPOINT and AZURE_SEARCH_API_KEY."), w))
  /\
  (config.validate_search_config cfg = true ->
   forall s,
     (forall i,
        init (Some s) (Some i) w
        = (Ok {| main.storage := main.injected s;
                 main.search_index := main.injected i |}, w))
     /\ init (Some s) None w
        = match cognitive_search.__init__ new_index_client new_search_client
                  cfg (snd w) with
          | (Ok d, b) =>
            (Ok {| main.storage := main.injected s;
                   main.search_index := main.built d |}, (fst w, b))
          | (Raise e, b) => (Raise e, (fst w, b))
          end).
Proof.
  cbv zeta. unfold main.__init__. split.
  - intros ->. reflexivity.
  - intros -> s. cbn [negb]. split.
    + intros i. destruct w. reflexivity.
    + unfold bind, ret, main.on_search_service. destruct w as [r b].
      cbn [fst snd].
      destruct (cognitive_search.__init__ _ _ _ _) as [[d|e] b'];
        reflexivity.
Qed.

Lemma constructor_requires_search_configuration_witness :
  (* search settings absent: the constructor raises, objects injected *)
  fst (Sample.chatbot Sample.env_storage_only (Some Sample.mock)
         (Some Sample.search_index)
         (Sample.blob_service, Sample.search_service))
  = Raise (ValueError "Azure Cognitive Search configuration missing. Set AZURE_SEARCH_SERVICE_ENDPOINT and AZURE_SEARCH_API_KEY.")
  (* storage settings absent, storage injected: it returns *)
  /\ is_ok (fst (Sample.chatbot Sample.env_search_only (Some Sample.mock)
                   (Some Sample.search_index)
                   (Sample.blob_service, Sample.search_service)))
     = true.
Proof.
  split.
  - unfold Sample.chatbot.
    rewrite (proj1 (constructor_requires_search_configuration
                      Sample.from_connection_string Sample.new_index_client
                      Sample.new_search_client
                      (config.__init__ Sample.env_storage_only)
                      (Sample.blob_service, Sample.search_service))).
    + reflexivity.
    + vm_compute. reflexivity.
  - unfold Sample.chatbot.
    rewrite (proj1 (proj2 (constructor_requires_search_configuration
                      Sample.from_connection_string Sample.new_index_client
                      Sample.new_search_client
                      (config.__init__ Sample.env_search_only)
                      (Sample.blob_service, Sample.search_service))
                      eq_refl Sample.mock)).
    reflexivity.
Defined.


(* ===================================================================== *)
(** * Further properties *)
(* ===================================================================== *)

(* --------------------------------------------------------------------- *)
(** ** Configuration *)
(* --------------------------------------------------------------------- *)

Lemma truthy_set_nonempty (env : gmap string string) (k : string) :
  Py.truthy (config.getenv env k) = true <-> set_nonempty env k.
Proof.
  unfold Py.truthy, config.getenv, set_nonempty.
  destruct (env !! k) as [v|].
  - destruct (String.eqb_spec v ""); simpl; split.
    + discriminate.
    + intros (v' & [= <-] & Hne). contradiction.
    + intros _. eauto.
    + reflexivity.
  - split; [discriminate|]. intros (v & [=] & _).
Qed.

(** X1. [Config()] read from an environment: the storage group is valid
    exactly when the connection string is set and not empty, the search
    group exactly when both the endpoint and the API key are set and not
    empty (one of them missing or empty fails the group), and the whole
    configuration exactly when all three are. *)
Theorem config_validation_reads_environment (env : gmap string string) :
  let cfg := config.__init__ env in
  (config.validate_storage_config cfg = true
   <-> set_nonempty env "AZURE_STORAGE_CONNECTION_STRING")
  /\ (config.validate_search_config cfg = true
      <-> set_nonempty env "AZURE_SEARCH_SERVICE_ENDPOINT"
          /\ set_nonempty env "AZURE_SEARCH_API_KEY")
  /\ (config.validate_all_config cfg = true
      <-> set_nonempty env "AZURE_STORAGE_CONNECTION_STRING"
          /\ set_nonempty env "AZURE_SEARCH_SERVICE_ENDPOINT"
          /\ set_nonempty env "AZURE_SEARCH_API_KEY").
Proof.
  cbv zeta.
  unfold config.validate_all_config, config.validate_storage_config,
    config.validate_search_config, config.__init__.
  cbn [config.storage_connection_string config.search_service_endpoint
       config.search_api_key].
  rewrite !andb_true_iff, !truthy_set_nonempty. tauto.
Qed.

(* --------------------------------------------------------------------- *)
(** ** Document ids *)
(* --------------------------------------------------------------------- *)

Lemma le_bytes_length n x : length (MD5.le_bytes n x) = n.
Proof. revert x. induction n as [|n IH]; intros x; simpl; [|rewrite IH]; reflexivity. Qed.

Lemma le_bytes_range n x :
  Forall (fun b => 0 <= b < 256) (MD5.le_bytes n x).
Proof.
  revert x. induction n as [|n IH]; intros x; simpl; constructor.
  - change 255 with (Z.ones 8). rewrite Z.land_ones by lia.
    apply Z.mod_pos_bound. lia.
  - apply IH.
Qed.

Lemma hex_digit_is_lower_hex n :
  0 <= n < 16 -> is_lower_hex (Py.hex_digit n) = true.
Proof.
  intros Hn.
  assert (Hall : forallb (fun k => is_lower_hex (Py.hex_digit (Z.of_nat k)))
                         (seq 0 16) = true) by (vm_compute; reflexivity).
  rewrite forallb_forall in Hall.
  specialize (Hall (Z.to_nat n)). rewrite Z2Nat.id in Hall by lia.
  apply Hall, in_seq. lia.
Qed.

Lemma hex_bytes_are_hex (bs : list Z) :
  Forall (fun b => 0 <= b < 256) bs ->
  length (concat (map Py.hex_byte bs)) = (2 * length bs)%nat
  /\ forallb is_lower_hex (concat (map Py.hex_byte bs)) = true.
Proof.
  induction 1 as [|b bs Hb _ [IHl IHf]]; [split; reflexivity|].
  cbn [map concat Py.hex_byte app length forallb]. split.
  - rewrite IHl. lia.
  - rewrite IHf, !hex_digit_is_lower_hex; [reflexivity| |].
    + apply Z.mod_pos_bound. lia.
    + split; [apply Z.div_pos; lia|apply Z.div_lt_upper_bound; lia].
Qed.

Lemma length_str (l : list ascii) : String.length (Py.str l) = length l.
Proof. induction l as [|c l IH]; simpl; [|rewrite IH]; reflexivity. Qed.

(** X2. Whatever the file name, the document id is made of exactly 32
    characters, each a digit or a letter from [a] to [f]. *)
Theorem document_id_is_32_hex_digits (filename : string) :
  String.length (main._generate_document_id filename) = 32%nat
  /\ forallb is_lower_hex (Py.chars (main._generate_document_id filename))
     = true.
Proof.
  unfold main._generate_document_id, MD5.hexdigest, MD5.digest.
  set (st := MD5.blocks _ _ _).
  destruct (hex_bytes_are_hex
              (MD5.le_bytes 4 (MD5.sA st) ++ MD5.le_bytes 4 (MD5.sB st)
               ++ MD5.le_bytes 4 (MD5.sC st) ++ MD5.le_bytes 4 (MD5.sD st)))
    as [Hl Hf].
  { repeat (apply Forall_app; split); apply le_bytes_range. }
  split.
  - rewrite length_str, Hl, !length_app, !le_bytes_length. reflexivity.
  - unfold Py.chars, Py.str. rewrite list_ascii_of_string_of_list_ascii.
    exact Hf.
Qed.

(* --------------------------------------------------------------------- *)
(** ** What a successful ingestion hands to the index *)
(* --------------------------------------------------------------------- *)

(** A successful ingestion, call by call. *)
Lemma upload_and_index_document_success {S B} (storage : main.Storage S)
    (search_index : main.SearchIndexObject B) file_path summary keywords
    fs clock s b tr (w' : main.world S B) :
  main.upload_and_index_document storage search_index file_path summary
    keywords (main.World fs clock s b tr) = (Ok true, w') ->
  exists blob_name s1 file_size url s2 b1,
    main.upload_document storage fs file_path None s = (Ok blob_name, s1)
    /\ os.getsize fs file_path = Ok file_size
    /\ main.get_document_url storage blob_name s1 = (Ok url, s2)
    /\ main.index_document search_index
         (document_data file_path summary keywords file_size
            (extracted fs file_path) clock url) b = (Ok true, b1)
    /\ w' = main.World fs clock s2 b1 (tr ++ stages file_path).
Proof.
  rewrite upload_and_index_document_eq.
  destruct (main.upload_document _ _ _ _ _) as [[blob|e] s1] eqn:Eup;
    [|discriminate].
  destruct (os.getsize _ _) as [n|e] eqn:Esz; [|discriminate].
  destruct (main.get_document_url _ _ _) as [[url|e] s2] eqn:Eurl;
    [|discriminate].
  destruct (main.index_document _ _ _) as [[ok|e] b1] eqn:E; [|discriminate].
  intros [= -> <-]. exists blob, s1, n, url, s2, b1.
  repeat split; assumption.
Qed.

Lemma dom_document_data file_path summary keywords n content now url
    index_name :
  dom (document_data file_path summary keywords n content now url)
  = list_to_set (schema_fields index_name).
Proof.
  unfold document_data. rewrite !dom_insert_L, dom_singleton_L.
  reflexivity.
Qed.

(** X3. The record a successful ingestion hands to the index has exactly
    the nine fields of the schema [_create_search_index] declares, among
    them the three that [index_document] requires; its [id] is the digest
    of the base name and its [filename] the base name. *)
Theorem indexed_record_has_schema_fields {S B} (storage : main.Storage S)
    (search_index : main.SearchIndexObject B) file_path summary keywords
    (w w' : main.world S B) (index_name : string) :
  main.upload_and_index_document storage search_index file_path summary
    keywords w = (Ok true, w') ->
  exists d : document,
    main.index_document search_index d (main.w_search w)
    = (Ok true, main.w_search w')
    /\ dom d = list_to_set (schema_fields index_name)
    /\ all_required d = true
    /\ d !! "id"
       = Some (VStr (main._generate_document_id (Py.basename file_path)))
    /\ d !! "filename" = Some (VStr (Py.basename file_path)).
Proof.
  destruct w as [fs clock s b tr]. intros H.
  apply upload_and_index_document_success in H
    as (blob & s1 & n & url & s2 & b1 & _ & _ & _ & Hi & ->).
  eexists. split; [exact Hi|].
  split; [apply dom_document_data|]. repeat split.
Qed.

(** X4. In that record, an absent or empty [summary] is replaced by
    ["Legal document: "] followed by the base name and absent keywords by
    the empty list; [file_type] is the lower-cased extension of the base
    name, [file_size] what [os.path.getsize] answers, [content] the
    extracted text, [upload_date] the clock reading followed by [Z], and
    [blob_url] the URL the storage object gives for the blob name the
    upload returned. *)
Theorem indexed_record_values {S B} (storage : main.Storage S)
    (search_index : main.SearchIndexObject B) file_path summary keywords
    (w w' : main.world S B) :
  main.upload_and_index_document storage search_index file_path summary
    keywords w = (Ok true, w') ->
  exists (d : document) blob_name s1 url s2 file_size,
    main.index_document search_index d (main.w_search w)
    = (Ok true, main.w_search w')
    /\ main.upload_document storage (main.w_fs w) file_path None
         (main.w_storage w) = (Ok blob_name, s1)
    /\ main.get_document_url storage blob_name s1 = (Ok url, s2)
    /\ os.getsize (main.w_fs w) file_path = Ok file_size
    /\ d !! "summary"
       = Some (VStr match summary with
                    | Some (String c s) => String c s
                    | _ => "Legal document: " ++ Py.basename file_path
                    end)
    /\ d !! "keywords" = Some (VList (default [] keywords))
    /\ d !! "file_type"
       = Some (VStr (Py.lower (snd (Py.splitext (Py.basename file_path)))))
    /\ d !! "file_size" = Some (VInt file_size)
    /\ d !! "content" = Some (VStr (extracted (main.w_fs w) file_path))
    /\ d !! "upload_date" = Some (VStr (main.w_clock w ++ "Z"))
    /\ d !! "blob_url" = Some (VStr url).
Proof.
  destruct w as [fs clock s b tr]. intros H.
  apply upload_and_index_document_success in H
    as (blob & s1 & n & url & s2 & b1 & Hup & Hsz & Hurl & Hi & ->).
  exists (document_data file_path summary keywords n (extracted fs file_path)
            clock url), blob, s1, url, s2, n.
  split; [exact Hi|]. split; [exact Hup|]. split; [exact Hurl|].
  split; [exact Hsz|]. split.
  - destruct summary as [[|c s']|]; reflexivity.
  - split; [destruct keywords as [[|k ks]|]; reflexivity|]. repeat split.
Qed.

(* --------------------------------------------------------------------- *)
(** ** Ingestions that fail *)
(* --------------------------------------------------------------------- *)

(** X5. When the upload, the size lookup or the URL lookup raises, the
    ingestion answers [False] and the search index object is not called:
    the state behind it is what it was, whatever the two objects are. *)
Theorem failure_before_indexing_leaves_index_alone {S B}
    (storage : main.Storage S) (search_index : main.SearchIndexObject B)
    file_path summary keywords (w : main.world S B) :
  (is_ok (fst (main.upload_document storage (main.w_fs w) file_path None
                 (main.w_storage w))) = false
   \/ is_ok (os.getsize (main.w_fs w) file_path) = false
   \/ (forall blob_name s1,
         main.upload_document storage (main.w_fs w) file_path None
           (main.w_storage w) = (Ok blob_name, s1) ->
         is_ok (fst (main.get_document_url storage blob_name s1)) = false)) ->
  exists w',
    main.upload_and_index_document storage search_index file_path summary
      keywords w = (Ok false, w')
    /\ main.w_search w' = main.w_search w.
Proof.
  destruct w as [fs clock s b tr]. cbn [main.w_fs main.w_storage].
  rewrite upload_and_index_document_eq. intros H.
  destruct (main.upload_document _ _ _ _ _) as [[blob|e] s1]; [|eauto].
  destruct (os.getsize _ _) as [n|e]; [|eauto].
  destruct (main.get_document_url _ _ _) as [[url|e] s2] eqn:Eurl; [|eauto].
  exfalso. destruct H as [H|[H|H]]; try discriminate.
  specialize (H blob s1 eq_refl). rewrite Eurl in H. discriminate.
Qed.

Lemma failure_before_indexing_leaves_index_alone_witness :
  exists w',
    Sample.ingest "docs/missing.txt" Sample.world0 = (Ok false, w')
    /\ main.w_search w' = Sample.search_service.
Proof.
  apply (failure_before_indexing_leaves_index_alone main.mock_storage
           (main.azure_search_index Sample.search_index)
           "docs/missing.txt" None None Sample.world0).
  left. vm_compute. reflexivity.
Defined.

Lemma indexed_record_has_schema_fields_witness :
  let w' := snd (Sample.ingest "docs/lease.txt" Sample.world0) in
  exists d : document,
    main.index_document (main.azure_search_index Sample.search_index) d
      (main.w_search Sample.world0) = (Ok true, main.w_search w')
    /\ dom d = list_to_set (schema_fields Sample.index_name)
    /\ all_required d = true
    /\ d !! "id"
       = Some (VStr (main._generate_document_id (Py.basename "docs/lease.txt")))
    /\ d !! "filename" = Some (VStr (Py.basename "docs/lease.txt")).
Proof.
  intros w'.
  apply (indexed_record_has_schema_fields main.mock_storage
           (main.azure_search_index Sample.search_index)
           "docs/lease.txt" None None Sample.world0 w' Sample.index_name).
  subst w'. unfold Sample.ingest. apply with_fst. vm_compute. reflexivity.
Defined.

Lemma indexed_record_values_witness :
  let w' := snd (main.upload_and_index_document main.mock_storage
                   (main.azure_search_index Sample.search_index)
                   "docs/brief.pdf" (Some "") (Some []) Sample.world0) in
  exists d : document,
    main.index_document (main.azure_search_index Sample.search_index) d
      (main.w_search Sample.world0) = (Ok true, main.w_search w')
    /\ d !! "summary" = Some (VStr "Legal document: brief.pdf")
    /\ d !! "keywords" = Some (VList [])
    /\ d !! "file_type" = Some (VStr ".pdf")
    /\ d !! "file_size" = Some (VInt 8)
    /\ d !! "upload_date" = Some (VStr "2024-05-01T12:00:00Z")
    /\ d !! "blob_url" = Some (VStr "https://mock-storage.local/brief.pdf").
Proof.
  intros w'.
  destruct (indexed_record_values main.mock_storage
              (main.azure_search_index Sample.search_index)
              "docs/brief.pdf" (Some "") (Some []) Sample.world0 w')
    as (d & blob & s1 & url & s2 & n & Hi & Hup & Hurl & Hsz & Hsum & Hkw
        & Hty & Hfs & _ & Hdate & Hblob).
  { subst w'. apply with_fst. vm_compute. reflexivity. }
  exists d. split; [exact Hi|].
  assert (Hb : blob = "brief.pdf").
  { change blob with (match (Ok blob : result string) with
                      | Ok x => x | Raise _ => "" end).
    replace (Ok blob) with (fst (main.upload_document main.mock_storage
               (main.w_fs Sample.world0) "docs/brief.pdf" None
               (main.w_storage Sample.world0))) by (rewrite Hup; reflexivity).
    vm_compute. reflexivity. }
  subst blob.
  assert (Hs1 : s1 = snd (main.upload_document main.mock_storage
               (main.w_fs Sample.world0) "docs/brief.pdf" None
               (main.w_storage Sample.world0))) by (rewrite Hup; reflexivity).
  subst s1.
  assert (Hu : url = "https://mock-storage.local/brief.pdf").
  { change url with (match (Ok url : result string) with
                     | Ok x => x | Raise _ => "" end).
    pose proof (f_equal fst Hurl) as Hf. cbn [fst] in Hf.
    rewrite <- Hf. vm_compute. reflexivity. }
  assert (Hn : n = 8).
  { assert (E : Ok n = Ok 8) by (rewrite <- Hsz; vm_compute; reflexivity).
    injection E as ->. reflexivity. }
  subst url n.
  split; [exact Hsum|]. split; [exact Hkw|].
  split; [rewrite Hty; vm_compute; reflexivity|].
  split; [exact Hfs|]. split; [exact Hdate|exact Hblob].
Defined.

(** A successful upload through the adapter into the in-memory service
    stores the file's bytes under the blob name. *)
Lemma in_memory_upload_document c fs path blob_name
    (r r' : InMemory.remote InMemory.containers) name :
  blob_storage.upload_document (InMemory.document_storage c) fs path
    blob_name r = (Ok name, r') ->
  exists data blobs,
    os.read_bytes fs path = Ok data
    /\ InMemory.store r !! c = Some blobs
    /\ name = default (Py.basename path) blob_name
    /\ InMemory.store r' = <[ c := <[ name := data ]> blobs ]> (InMemory.store r).
Proof.
  unfold blob_storage.upload_document.
  destruct (negb (os.exists_ fs path)); [discriminate|].
  unfold try_except, bind, lift, ret, raise.
  destruct (os.read_bytes fs path) as [data|e]; [|discriminate].
  cbn [InMemory.document_storage blob_storage.blob_service_client
       blob_storage.container_name InMemory.blob_service_client
       blob_storage.upload_blob].
  unfold InMemory.upload_blob, InMemory.sdk_call.
  intros H. exists data.
  destruct (InMemory.store r !! c) as [blobs|] eqn:Ec.
  - exists blobs.
    assert (Hname : name = default (Py.basename path) blob_name
                    /\ InMemory.store r'
                       = <[ c := <[ name := data ]> blobs ]> (InMemory.store r)).
    { destruct (InMemory.faults r) as [|[st|] rest]; try discriminate;
        destruct blob_name as [bn|]; cbn [default] in *;
        match type of H with
        | context [blobs !! ?k] => destruct (blobs !! k)
        end; cbv beta iota in H; injection H as <- <-; split; reflexivity. }
    destruct Hname. auto.
  - exfalso.
    destruct (InMemory.faults r) as [|[st|] rest]; discriminate.
Qed.

(** X6. There is no rollback.  With the real adapter on the in-memory
    blob service: when the ingestion answers [False] although the upload
    had succeeded (the size lookup or the index write failed), the blob
    is in the container, holding the file's bytes. *)
Theorem failed_ingestion_keeps_the_blob {B}
    (search_index : main.SearchIndexObject B) c file_path summary keywords
    fs clock (r : InMemory.remote InMemory.containers) (b : B) tr w' :
  let storage := main.azure_storage (InMemory.document_storage c) in
  main.upload_and_index_document storage search_index file_path summary
    keywords (main.World fs clock r b tr) = (Ok false, w') ->
  is_ok (fst (main.upload_document storage fs file_path None r)) = true ->
  exists data blobs,
    os.read_bytes fs file_path = Ok data
    /\ InMemory.store (main.w_storage w') !! c = Some blobs
    /\ blobs !! Py.basename file_path = Some data.
Proof.
  intros storage. subst storage.
  rewrite upload_and_index_document_eq.
  destruct (main.upload_document _ _ _ _ _) as [[name|e] r1] eqn:Eup;
    [|discriminate].
  cbn [main.azure_storage main.upload_document] in Eup.
  destruct (in_memory_upload_document _ _ _ _ _ _ _ Eup)
    as (data & blobs & Hread & Hc & Hname & Hst).
  cbn [default] in Hname. subst name.
  cbn [main.azure_storage main.get_document_url].
  unfold blob_storage.get_document_url, ret.
  intros H _. exists data, (<[ Py.basename file_path := data ]> blobs).
  assert (Hw : main.w_storage w' = r1).
  { destruct (os.getsize fs file_path);
      [destruct (main.index_document _ _ _) as [[ok|e] b1]|];
      inversion H; reflexivity. }
  rewrite Hw, Hst, !lookup_insert_eq. auto.
Qed.

Lemma failed_ingestion_keeps_the_blob_witness :
  let w' := snd (main.upload_and_index_document
                   (main.azure_storage Sample.storage)
                   (main.azure_search_index Sample.search_index)
                   "docs/brief.pdf" None None Fixtures.azure_search_down) in
  exists data blobs,
    os.read_bytes Sample.fs "docs/brief.pdf" = Ok data
    /\ InMemory.store (main.w_storage w') !! "legal-documents" = Some blobs
    /\ blobs !! Py.basename "docs/brief.pdf" = Some data.
Proof.
  intros w'.
  apply (failed_ingestion_keeps_the_blob
           (main.azure_search_index Sample.search_index) "legal-documents"
           "docs/brief.pdf" None None Sample.fs "2024-05-01T12:00:00"
           Sample.blob_service Sample.search_outage [] w').
  - subst w'. apply with_fst. vm_compute. reflexivity.
  - vm_compute. reflexivity.
Defined.

(* --------------------------------------------------------------------- *)
(** ** Directory ingestion: errors and what reaches the storage *)
(* --------------------------------------------------------------------- *)

(** X7. [upload_and_index_directory] raises [FileNotFoundError] for a
    path that does not exist and [NotADirectoryError] (from
    [os.listdir]) for a path that is a regular file; in both cases
    nothing has been uploaded or indexed. *)
Theorem upload_and_index_directory_errors {S B} (storage : main.Storage S)
    (search_index : main.SearchIndexObject B) directory_path
    (w : main.world S B) :
  (main.w_fs w !! directory_path = None ->
   main.upload_and_index_directory storage search_index directory_path w
   = (Raise (FileNotFoundError ("Directory not found: " ++ directory_path)),
      w))
  /\ (forall data readable,
        main.w_fs w !! directory_path = Some (File data readable) ->
        main.upload_and_index_directory storage search_index directory_path w
        = (Raise NotADirectoryError, w)).
Proof.
  split.
  - intros H. rewrite upload_and_index_directory_eq, H. reflexivity.
  - intros data readable H. rewrite upload_and_index_directory_eq, H.
    reflexivity.
Qed.

Lemma upload_and_index_directory_errors_witness :
  Sample.ingest_directory "nowhere" Sample.world0
  = (Raise (FileNotFoundError "Directory not found: nowhere"), Sample.world0)
  /\ Sample.ingest_directory "docs/lease.txt" Sample.world0
     = (Raise NotADirectoryError, Sample.world0).
Proof.
  split.
  - apply (upload_and_index_directory_errors main.mock_storage
             (main.azure_search_index Sample.search_index) "nowhere"
             Sample.world0).
    vm_compute. reflexivity.
  - apply (proj2 (upload_and_index_directory_errors main.mock_storage
             (main.azure_search_index Sample.search_index) "docs/lease.txt"
             Sample.world0) "notice of contract termination" true).
    vm_compute. reflexivity.
Defined.

(* --------------------------------------------------------------------- *)
(** ** The mock storage *)
(* --------------------------------------------------------------------- *)

Lemma str_in_elem (x : string) (l : list string) :
  str_in x l = true <-> x ∈ l.
Proof.
  unfold str_in. rewrite existsb_exists. split.
  - intros (y & Hin & Heq). apply String.eqb_eq in Heq. subst y.
    apply list_elem_of_In. exact Hin.
  - intros Hin. exists x. split; [apply list_elem_of_In, Hin|].
    apply String.eqb_refl.
Qed.

(** X8. [MockDocumentStorage.upload_document] raises [FileNotFoundError]
    for a missing path and changes nothing; for an existing path it
    returns the blob name (the given one, or the base name) and records it
    once: the listing gains the name at its end unless it is already
    there, it never gets a duplicate, and uploading again changes
    nothing. *)
Theorem mock_upload_document_records_once (fs : filesystem) (path : string)
    (blob_name : option string) (self : mock_storage.MockDocumentStorage) :
  let name := default (Py.basename path) blob_name in
  (os.exists_ fs path = false ->
   mock_storage.upload_document fs path blob_name self
   = (Raise (FileNotFoundError path), self))
  /\ (os.exists_ fs path = true ->
      exists self',
        mock_storage.upload_document fs path blob_name self = (Ok name, self')
        /\ mock_storage.base_url self' = mock_storage.base_url self
        /\ mock_storage._documents self'
           = (if str_in name (mock_storage._documents self)
              then mock_storage._documents self
              else mock_storage._documents self ++ [name])%list
        /\ (NoDup (mock_storage._documents self) ->
            NoDup (mock_storage._documents self'))
        /\ mock_storage.upload_document fs path blob_name self'
           = (Ok name, self')).
Proof.
  cbv zeta. unfold mock_storage.upload_document. split.
  - intros ->. reflexivity.
  - intros ->. cbn [negb].
    replace (match blob_name with
             | Some b => b
             | None => Py.basename path
             end) with (default (Py.basename path) blob_name)
      by (destruct blob_name; reflexivity).
    set (name := default (Py.basename path) blob_name).
    destruct (str_in name (mock_storage._documents self)) eqn:Ein;
      cbn [negb].
    + exists self. rewrite Ein. cbn [negb]. auto.
    + eexists. split; [reflexivity|]. cbn [mock_storage.base_url
                                           mock_storage._documents].
      split; [reflexivity|]. split; [reflexivity|]. split.
      * intros Hnd. apply NoDup_app. split; [exact Hnd|]. split.
        -- intros x Hx Hx'. apply list_elem_of_singleton in Hx'. subst x.
           apply str_in_elem in Hx. congruence.
        -- apply NoDup_singleton.
      * assert (Hin : str_in name (mock_storage._documents self ++ [name])
                      = true).
        { apply str_in_elem, elem_of_app. right. left. }
        rewrite Hin. reflexivity.
Qed.

Lemma mock_upload_document_records_once_witness :
  exists self',
    mock_storage.upload_document Sample.fs "docs/lease.txt" None Sample.mock
    = (Ok "lease.txt", self')
    /\ mock_storage._documents self' = ["lease.txt"]
    /\ mock_storage.upload_document Sample.fs "docs/lease.txt" None self'
       = (Ok "lease.txt", self').
Proof.
  destruct (proj2 (mock_upload_document_records_once Sample.fs
                     "docs/lease.txt" None Sample.mock))
    as (self' & E & _ & Hd & _ & E').
  { vm_compute. reflexivity. }
  exists self'. split; [exact E|]. split; [rewrite Hd; reflexivity|exact E'].
Defined.

Lemma chars_app (s1 s2 : string) :
  Py.chars (s1 ++ s2) = (Py.chars s1 ++ Py.chars s2)%list.
Proof. induction s1 as [|c s1 IH]; simpl; [|rewrite <- IH]; reflexivity. Qed.

Lemma str_chars (s : string) : Py.str (Py.chars s) = s.
Proof. apply string_of_list_ascii_of_string. Qed.

Lemma chars_str (l : list ascii) : Py.chars (Py.str l) = l.
Proof. apply list_ascii_of_string_of_list_ascii. Qed.

Lemma lstrip_chars_head (c : ascii) (l : list ascii) :
  match Py.lstrip_chars c l with
  | [] => True
  | x :: _ => x <> c
  end.
Proof.
  induction l as [|x l IH]; simpl; [exact I|].
  destruct (Ascii.eqb_spec x c); [exact IH|assumption].
Qed.

Lemma lstrip_chars_idem (c : ascii) (l : list ascii) :
  Py.lstrip_chars c (Py.lstrip_chars c l) = Py.lstrip_chars c l.
Proof.
  pose proof (lstrip_chars_head c l) as H.
  destruct (Py.lstrip_chars c l) as [|x r]; [reflexivity|].
  simpl. destruct (Ascii.eqb_spec x c); [contradiction|reflexivity].
Qed.

Lemma rstrip_app_sep (c : ascii) (s : string) :
  Py.rstrip c (s ++ String c EmptyString) = Py.rstrip c s.
Proof.
  unfold Py.rstrip. rewrite chars_app. cbn [Py.chars list_ascii_of_string].
  rewrite rev_app_distr. cbn [rev app Py.lstrip_chars].
  rewrite Ascii.eqb_refl. reflexivity.
Qed.

Lemma rstrip_idem (c : ascii) (s : string) :
  Py.rstrip c (Py.rstrip c s) = Py.rstrip c s.
Proof.
  unfold Py.rstrip. rewrite chars_str, rev_involutive, lstrip_chars_idem.
  reflexivity.
Qed.

Lemma rstrip_not_endswith (c : ascii) (s : string) :
  Py.endswith (Py.rstrip c s) (String c EmptyString) = false.
Proof.
  unfold Py.endswith, Py.rstrip, Py.eqb_chars. rewrite chars_str.
  cbn [Py.chars list_ascii_of_string length].
  pose proof (lstrip_chars_head c (rev (Py.chars s))) as H.
  destruct (Py.lstrip_chars c (rev (Py.chars s))) as [|x r];
    [reflexivity|].
  cbn [rev]. rewrite length_app. cbn [length].
  replace (length (rev r) + 1 - 1)%nat with (length (rev r)) by lia.
  rewrite drop_app_length. rewrite bool_decide_eq_false_2; [reflexivity|].
  intros [= ->]. contradiction.
Qed.

Lemma string_append_assoc (s1 s2 s3 : string) :
  ((s1 ++ s2) ++ s3 = s1 ++ s2 ++ s3)%string.
Proof.
  induction s1 as [|c s1 IH]; [reflexivity|].
  change (String c ((s1 ++ s2) ++ s3) = String c (s1 ++ s2 ++ s3))%string.
  f_equal. exact IH.
Qed.

(** X9. [MockDocumentStorage(base_url)] keeps the base URL with its
    trailing slashes removed and one slash put back, so a trailing slash
    more or less makes no difference, normalising twice changes nothing,
    and the URL of a blob is that base, one slash, and the blob name. *)
Theorem mock_base_url_is_normalised (base_url name : string) :
  let self := mock_storage.__init__ base_url in
  mock_storage.__init__ (base_url ++ "/") = self
  /\ mock_storage.__init__ (mock_storage.base_url self) = self
  /\ Py.endswith (Py.rstrip "/" base_url) "/" = false
  /\ mock_storage.get_document_url name self
     = (Ok (Py.rstrip "/" base_url ++ "/" ++ name)%string, self).
Proof.
  cbv zeta. unfold mock_storage.__init__, mock_storage.get_document_url.
  cbn [mock_storage.base_url].
  rewrite !rstrip_app_sep, rstrip_idem.
  split; [reflexivity|]. split; [reflexivity|].
  split; [apply rstrip_not_endswith|].
  rewrite string_append_assoc. reflexivity.
Qed.




(* --------------------------------------------------------------------- *)
(** ** The blob storage adapter *)
(* --------------------------------------------------------------------- *)

(** X11. [DocumentStorage.upload_document], whatever the client: a
    missing path raises [FileNotFoundError] before any remote call; a
    path that cannot be read raises the read error, again without a
    remote call; otherwise the file's bytes are sent in one
    [upload_blob] call with [overwrite=True] under the given blob name,
    or the base name when none is given, and the result is that name or
    the error of that call, unchanged. *)
Theorem upload_document_contract {R} (self : blob_storage.DocumentStorage R)
    (fs : filesystem) (path : string) (blob_name : option string) (r : R) :
  let name := default (Py.basename path) blob_name in
  let run := blob_storage.upload_document self fs path blob_name r in
  (os.exists_ fs path = false ->
   run = (Raise (FileNotFoundError ("File not found: " ++ path)), r))
  /\ (forall e,
        os.exists_ fs path = true -> os.read_bytes fs path = Raise e ->
        run = (Raise e, r))
  /\ (forall data,
        os.read_bytes fs path = Ok data ->
        run = match blob_storage.upload_blob
                      (blob_storage.blob_service_client self)
                      (blob_storage.container_name self) name data true r
              with
              | (Ok _, r') => (Ok name, r')
              | (Raise e, r') => (Raise e, r')
              end).
Proof.
  cbv zeta. unfold blob_storage.upload_document.
  replace (match blob_name with
           | Some b => b
           | None => Py.basename path
           end) with (default (Py.basename path) blob_name)
    by (destruct blob_name; reflexivity).
  split; [|split].
  - intros ->. reflexivity.
  - intros e -> He. cbn [negb].
    unfold try_except, bind, lift, raise. rewrite He. reflexivity.
  - intros data Hd.
    assert (Hex : os.exists_ fs path = true).
    { unfold os.read_bytes, os.exists_ in *.
      destruct (fs !! path); [reflexivity|discriminate]. }
    rewrite Hex. cbn [negb].
    unfold try_except, bind, lift, raise, ret. rewrite Hd.
    destruct (blob_storage.upload_blob _ _ _ _ _ _) as [[[]|e] r'];
      reflexivity.
Qed.

Lemma upload_document_contract_witness :
  blob_storage.upload_document Sample.storage Sample.fs "docs/none.txt" None
    Sample.blob_service
  = (Raise (FileNotFoundError "File not found: docs/none.txt"),
     Sample.blob_service)
  /\ blob_storage.upload_document Sample.storage Sample.fs "docs/archive"
       None Sample.blob_service
     = (Raise IsADirectoryError, Sample.blob_service)
  /\ fst (blob_storage.upload_document Sample.storage Sample.fs
            "docs/brief.pdf" (Some "b.pdf") Sample.blob_service)
     = Ok "b.pdf".
Proof.
  split; [|split].
  - apply (proj1 (upload_document_contract Sample.storage Sample.fs
                    "docs/none.txt" None Sample.blob_service)).
    vm_compute. reflexivity.
  - apply (proj1 (proj2 (upload_document_contract Sample.storage Sample.fs
                           "docs/archive" None Sample.blob_service)));
      vm_compute; reflexivity.
  - rewrite (proj2 (proj2 (upload_document_contract Sample.storage Sample.fs
                             "docs/brief.pdf" (Some "b.pdf")
                             Sample.blob_service)) "%PDF-1.4").
    + vm_compute. reflexivity.
    + vm_compute. reflexivity.
Defined.

Lemma in_memory_list_documents c (r : InMemory.remote InMemory.containers)
    blobs :
  InMemory.store r !! c = Some blobs ->
  InMemory.next_fault r = None ->
  fst (blob_storage.list_documents (InMemory.document_storage c) r)
  = Ok (map fst (map_to_list blobs)).
Proof.
  intros Hc Hf. unfold blob_storage.list_documents, try_except.
  cbn [InMemory.document_storage blob_storage.blob_service_client
       blob_storage.container_name InMemory.blob_service_client
       blob_storage.list_blobs].
  unfold InMemory.list_blobs, InMemory.sdk_call, InMemory.next_fault in *.
  destruct (InMemory.faults r) as [|[st|] rest]; try discriminate;
    rewrite Hc; reflexivity.
Qed.

(** X12. Upload, then list, on the in-memory blob service: after a
    successful [upload_document] the container holds the file's bytes
    under the returned name (replacing an earlier blob of that name), no
    other blob is touched, and [list_documents], if the service answers,
    lists that name together with exactly the names that were there. *)
Theorem uploaded_blob_is_stored_and_listed c fs path blob_name
    (r r' : InMemory.remote InMemory.containers) name :
  blob_storage.upload_document (InMemory.document_storage c) fs path
    blob_name r = (Ok name, r') ->
  exists data before after,
    os.read_bytes fs path = Ok data
    /\ InMemory.store r !! c = Some before
    /\ InMemory.store r' !! c = Some after
    /\ after !! name = Some data
    /\ (forall x, x <> name -> after !! x = before !! x)
    /\ (InMemory.next_fault r' = None ->
        exists names,
          fst (blob_storage.list_documents (InMemory.document_storage c) r')
          = Ok names
          /\ forall x, x ∈ names <-> x = name \/ is_Some (before !! x)).
Proof.
  intros H.
  destruct (in_memory_upload_document _ _ _ _ _ _ _ H)
    as (data & blobs & Hread & Hc & _ & Hst).
  exists data, blobs, (<[ name := data ]> blobs).
  assert (Hafter : InMemory.store r' !! c = Some (<[ name := data ]> blobs))
    by (rewrite Hst; apply lookup_insert_eq).
  split; [exact Hread|]. split; [exact Hc|]. split; [exact Hafter|].
  split; [apply lookup_insert_eq|].
  split; [intros x Hx; apply lookup_insert_ne; congruence|].
  intros Hf. eexists. split; [apply in_memory_list_documents; eassumption|].
  intros x. rewrite list_elem_of_fmap. split.
  - intros ([k v] & -> & Hkv). apply elem_of_map_to_list in Hkv.
    cbn [fst]. apply lookup_insert_Some in Hkv as [[-> _]|[Hne Hk]]; eauto.
  - intros [->|[v Hv]].
    + exists (name, data). split; [reflexivity|].
      apply elem_of_map_to_list, lookup_insert_eq.
    + destruct (decide (x = name)) as [->|Hne].
      * exists (name, data). split; [reflexivity|].
        apply elem_of_map_to_list, lookup_insert_eq.
      * exists (x, v). split; [reflexivity|].
        apply elem_of_map_to_list. rewrite lookup_insert_ne by congruence.
        exact Hv.
Qed.

Lemma uploaded_blob_is_stored_and_listed_witness :
  let r' := snd (blob_storage.upload_document Sample.storage Sample.fs
                   "docs/brief.pdf" None Sample.blob_service) in
  exists names,
    fst (blob_storage.list_documents Sample.storage r') = Ok names
    /\ "brief.pdf" ∈ names /\ "lease.txt" ∈ names.
Proof.
  intros r'.
  destruct (uploaded_blob_is_stored_and_listed "legal-documents" Sample.fs
              "docs/brief.pdf" None Sample.blob_service r' "brief.pdf")
    as (data & before & after & _ & Hb & _ & _ & _ & Hlist).
  { subst r'. apply with_fst. vm_compute. reflexivity. }
  destruct Hlist as (names & E & Hn); [vm_compute; reflexivity|].
  exists names. split; [exact E|]. split.
  - apply Hn. left. reflexivity.
  - apply Hn. right.
    assert (Hbefore : before = {[ "lease.txt" := "notice of contract termination" ]}).
    { assert (E' : Some before
                   = Some ({[ "lease.txt" := "notice of contract termination" ]}
                           : gmap string string))
        by (rewrite <- Hb; reflexivity).
      injection E' as ->. reflexivity. }
    rewrite Hbefore. eexists. apply lookup_singleton_eq.
Defined.


(* --------------------------------------------------------------------- *)
(** ** The search index adapter: delete, fetch, construct *)
(* --------------------------------------------------------------------- *)

Lemma delete_document_eq {B} (self : cognitive_search.DocumentSearchIndex B)
    (document_id : string) (b : B) :
  cognitive_search.delete_document self document_id b =
  let '(r, b') := cognitive_search.delete_documents
                    (cognitive_search.search_client self)
                    [{[ "id" := VStr document_id ]}] b in
  (Ok (acknowledged r), b').
Proof.
  unfold cognitive_search.delete_document, try_except, bind, ret.
  destruct (cognitive_search.delete_documents _ _ _) as [[l|e] b'];
    [|reflexivity].
  destruct l as [|r0 l]; [reflexivity|].
  cbn [acknowledged length].
  replace (0 <? Z.of_nat (Datatypes.S (length l))) with true
    by (symmetry; apply Z.ltb_lt; lia).
  destruct (cognitive_search.succeeded r0); reflexivity.
Qed.

Lemma in_memory_get_document_by_id index_name k
    (b : InMemory.remote InMemory.indexes) docs :
  InMemory.store b !! index_name = Some docs ->
  fst (cognitive_search.get_document_by_id
         (InMemory.document_search_index index_name) k b)
  = match InMemory.next_fault b with
    | Some _ => Ok None
    | None => Ok (docs !! k)
    end.
Proof.
  intros Hi. rewrite get_document_by_id_eq.
  cbn [InMemory.document_search_index cognitive_search.search_client
       InMemory.search_client cognitive_search.get_document].
  unfold InMemory.get_document, InMemory.sdk_call, InMemory.next_fault.
  destruct (InMemory.faults b) as [|[st|] rest]; rewrite ?Hi;
    try reflexivity; destruct (docs !! k); reflexivity.
Qed.

(** X13. [delete_document] never raises and answers the success flag of
    the backend's first acknowledgement ([False] when the call raises or
    acknowledges nothing).  On the in-memory service, once it has
    answered [True], [get_document_by_id] for that id answers [None],
    and every other document is still the one it was. *)
Theorem deleted_document_is_absent :
  (forall B (self : cognitive_search.DocumentSearchIndex B) document_id b,
     cognitive_search.delete_document self document_id b
     = (Ok (acknowledged
              (fst (cognitive_search.delete_documents
                      (cognitive_search.search_client self)
                      [{[ "id" := VStr document_id ]}] b))),
        snd (cognitive_search.delete_documents
               (cognitive_search.search_client self)
               [{[ "id" := VStr document_id ]}] b)))
  /\ (forall index_name document_id
        (b b1 : InMemory.remote InMemory.indexes),
        let self := InMemory.document_search_index index_name in
        cognitive_search.delete_document self document_id b = (Ok true, b1) ->
        fst (cognitive_search.get_document_by_id self document_id b1)
        = Ok None
        /\ exists before after,
             InMemory.store b !! index_name = Some before
             /\ InMemory.store b1 !! index_name = Some after
             /\ after = delete document_id before).
Proof.
  split.
  - intros B self document_id b. rewrite delete_document_eq.
    destruct (cognitive_search.delete_documents _ _ _); reflexivity.
  - intros index_name document_id b b1 self. subst self.
    rewrite delete_document_eq.
    cbn [InMemory.document_search_index cognitive_search.search_client
         InMemory.search_client cognitive_search.delete_documents].
    unfold InMemory.delete_documents, InMemory.sdk_call.
    cbn [InMemory.all_keyed forallb fold_left map].
    unfold InMemory.remove, InMemory.ack, InMemory.doc_key.
    rewrite !lookup_singleton_eq. cbn [andb default].
    intros H.
    assert (Hst : exists before,
               InMemory.store b !! index_name = Some before
               /\ InMemory.store b1
                  = <[ index_name := delete document_id before ]>
                      (InMemory.store b)).
    { destruct (InMemory.faults b) as [|[st|] rest]; try discriminate;
        (destruct (InMemory.store b !! index_name) as [docs|];
           [|discriminate]);
        cbv beta iota in H; injection H as <-; exists docs; split;
        reflexivity. }
    destruct Hst as (before & Hb & Hst).
    assert (Ha : InMemory.store b1 !! index_name
                 = Some (delete document_id before))
      by (rewrite Hst; apply lookup_insert_eq).
    split.
    + rewrite (in_memory_get_document_by_id _ _ _ _ Ha).
      rewrite lookup_delete_eq.
      destruct (InMemory.next_fault b1); reflexivity.
    + eauto.
Qed.

Lemma deleted_document_is_absent_witness :
  let b := snd (cognitive_search.index_document Sample.search_index
                  Sample.lease Sample.search_service) in
  let b1 := snd (cognitive_search.delete_document Sample.search_index "1" b) in
  match fst (cognitive_search.get_document_by_id Sample.search_index "1" b)
  with
  | Ok (Some d) => d !! "filename" = Some (VStr "lease.txt")
  | _ => False
  end
  /\ fst (cognitive_search.get_document_by_id Sample.search_index "1" b1)
     = Ok None.
Proof.
  intros b b1. split.
  - vm_compute. reflexivity.
  - apply (proj2 deleted_document_is_absent Sample.index_name "1" b b1).
    subst b1. apply with_fst. vm_compute. reflexivity.
Defined.

(** X14. Index, then fetch, on the in-memory service: when
    [index_document] has answered [True] the record has all required
    fields and a string [id]; it is stored under that id, every other
    document is the one it was, and [get_document_by_id] for that id
    returns the record whenever the service answers. *)
Theorem indexed_document_is_retrievable index_name (d : document)
    (b b1 : InMemory.remote InMemory.indexes) :
  let self := InMemory.document_search_index index_name in
  cognitive_search.index_document self d b = (Ok true, b1) ->
  exists k before after,
    d !! "id" = Some (VStr k)
    /\ all_required d = true
    /\ InMemory.store b !! index_name = Some before
    /\ InMemory.store b1 !! index_name = Some after
    /\ after = <[ k := d ]> before
    /\ (InMemory.next_fault b1 = None ->
        fst (cognitive_search.get_document_by_id self k b1) = Ok (Some d)).
Proof.
  intros self H. subst self.
  assert (Hreq : all_required d = true).
  { rewrite index_document_eq in H.
    destruct (all_required d); [reflexivity|discriminate]. }
  destruct (in_memory_index_document_true _ _ _ _ H)
    as (docs & k & Hb & Hk & Hst).
  assert (Ha : InMemory.store b1 !! index_name = Some (<[ k := d ]> docs))
    by (rewrite Hst; apply lookup_insert_eq).
  exists k, docs, (<[ k := d ]> docs).
  split.
  { unfold InMemory.doc_key in Hk.
    destruct (d !! "id") as [[s|n|l]|]; try discriminate.
    injection Hk as ->. reflexivity. }
  split; [exact Hreq|]. split; [exact Hb|]. split; [exact Ha|].
  split; [reflexivity|].
  intros Hf. rewrite (in_memory_get_document_by_id _ _ _ _ Ha), Hf.
  rewrite lookup_insert_eq. reflexivity.
Qed.

Lemma indexed_document_is_retrievable_witness :
  let b1 := snd (cognitive_search.index_document Sample.search_index
                   Sample.lease Sample.search_service) in
  exists k,
    Sample.lease !! "id" = Some (VStr k)
    /\ fst (cognitive_search.get_document_by_id Sample.search_index k b1)
       = Ok (Some Sample.lease).
Proof.
  intros b1.
  destruct (indexed_document_is_retrievable Sample.index_name Sample.lease
              Sample.search_service b1)
    as (k & before & after & Hid & _ & _ & _ & _ & Hget).
  { subst b1. apply with_fst. vm_compute. reflexivity. }
  exists k. split; [exact Hid|]. apply Hget. vm_compute. reflexivity.
Defined.

(** X15. The two adapters' constructors: without its configuration group
    each raises [ValueError] before any connection or remote call; a
    [DocumentSearchIndex] that has been built carries the endpoint, key
    and index name of the configuration, and building it made exactly the
    call [_ensure_index_exists] makes for that index name; likewise a
    [DocumentStorage] carries the configured container name. *)
Theorem adapters_are_built_from_configuration {R B}
    (from_connection_string
       : string -> result (blob_storage.BlobServiceClient R))
    (new_index_client
       : string -> string -> cognitive_search.SearchIndexClient B)
    (new_search_client
       : string -> string -> string -> cognitive_search.SearchClient B)
    (cfg : config.Config) (r : R) (b : B) :
  (config.validate_storage_config cfg = false ->
   blob_storage.__init__ from_connection_string cfg r
   = (Raise (ValueError "Azure Storage configuration is missing. Please check your environment variables."), r))
  /\ (config.validate_search_config cfg = false ->
      cognitive_search.__init__ new_index_client new_search_client cfg b
      = (Raise (ValueError "Azure Cognitive Search configuration is missing. Please check your environment variables."), b))
  /\ (forall self r',
        blob_storage.__init__ from_connection_string cfg r = (Ok self, r') ->
        config.validate_storage_config cfg = true
        /\ blob_storage.container_name self
           = config.storage_container_name cfg
        /\ blob_storage._ensure_container_exists self r = (Ok tt, r'))
  /\ (forall self b',
        cognitive_search.__init__ new_index_client new_search_client cfg b
        = (Ok self, b') ->
        config.validate_search_config cfg = true
        /\ cognitive_search.index_name self = config.search_index_name cfg
        /\ Some (cognitive_search.service_endpoint self)
           = config.search_service_endpoint cfg
        /\ Some (cognitive_search.api_key self) = config.search_api_key cfg
        /\ cognitive_search._ensure_index_exists
             (cognitive_search.index_client self)
             (config.search_index_name cfg) b = (Ok tt, b')).
Proof.
  split; [|split; [|split]].
  - unfold blob_storage.__init__. intros ->. reflexivity.
  - unfold cognitive_search.__init__. intros ->. reflexivity.
  - intros self r'. unfold blob_storage.__init__.
    destruct (config.validate_storage_config cfg); [|discriminate].
    cbn [negb]. unfold bind, lift, ret.
    destruct (from_connection_string _) as [client|e]; [|discriminate].
    destruct (blob_storage._ensure_container_exists _ r) as [[[]|e] r1] eqn:E;
      [|discriminate].
    intros [= <- <-]. auto.
  - intros self b'. unfold cognitive_search.__init__.
    unfold config.validate_search_config.
    destruct (config.search_service_endpoint cfg) as [endpoint|];
      [|discriminate].
    destruct (config.search_api_key cfg) as [key|];
      [|rewrite andb_false_r; discriminate].
    destruct (Py.truthy (Some endpoint) && Py.truthy (Some key));
      [|discriminate].
    cbn [negb default]. unfold bind, ret.
    cbn [cognitive_search.index_client].
    destruct (cognitive_search._ensure_index_exists _ _ b)
      as [[[]|e] b1] eqn:E; [|discriminate].
    intros [= <- <-]. auto 10.
Qed.

Lemma adapters_are_built_from_configuration_witness :
  let cfg := config.__init__ Sample.env_search_only in
  is_ok (fst (blob_storage.__init__ Sample.from_connection_string cfg
                Sample.blob_service)) = false
  /\ exists self,
       fst (cognitive_search.__init__ Sample.new_index_client
              Sample.new_search_client cfg Sample.search_service) = Ok self
       /\ cognitive_search.index_name self = "legal-documents-index".
Proof.
  intros cfg. split.
  - rewrite (proj1 (adapters_are_built_from_configuration
                      Sample.from_connection_string Sample.new_index_client
                      Sample.new_search_client cfg Sample.blob_service
                      Sample.search_service)).
    + reflexivity.
    + vm_compute. reflexivity.
  - destruct (cognitive_search.__init__ Sample.new_index_client
                Sample.new_search_client cfg Sample.search_service)
      as [[self|e] b'] eqn:E.
    + exists self. split; [reflexivity|].
      destruct (proj2 (proj2 (proj2 (adapters_are_built_from_configuration
                  Sample.from_connection_string Sample.new_index_client
                  Sample.new_search_client cfg Sample.blob_service
                  Sample.search_service))) self b' E) as (_ & Hn & _).
      rewrite Hn. vm_compute. reflexivity.
    + exfalso.
      assert (H : is_ok (fst (cognitive_search.__init__
                                Sample.new_index_client
                                Sample.new_search_client cfg
                                Sample.search_service)) = true)
        by (vm_compute; reflexivity).
      rewrite E in H. discriminate.
Defined.

(* --------------------------------------------------------------------- *)
(** ** The chatbot's statistics *)
(* --------------------------------------------------------------------- *)

(** X16. [get_statistics] with a [DocumentSearchIndex]: if listing the
    storage raises, that exception is raised and the search service is
    not asked; otherwise the result holds, under [blob_storage], the
    number of listed names and the configured container name, and under
    [search_index] the backend's document count, or [0] if the count
    call raised. *)
Theorem get_statistics_contract {S B} (storage : main.Storage S)
    (self : cognitive_search.DocumentSearchIndex B) (cfg : config.Config)
    fs clock s b tr :
  let run := chatbot.get_statistics storage (main.azure_search_index self)
               cfg (main.World fs clock s b tr) in
  match main.list_documents storage s with
  | (Raise e, s1) => run = (Raise e, main.World fs clock s1 b tr)
  | (Ok names, s1) =>
    exists stats : gmap string document,
      run = (Ok stats,
             main.World fs clock s1
               (snd (cognitive_search.get_document_count
                       (cognitive_search.search_client self) b)) tr)
      /\ stats !! "blob_storage"
         = Some ({[ "document_count" := VInt (Z.of_nat (length names));
                    "container_name" :=
                      VStr (config.storage_container_name cfg) ]} : document)
      /\ stats !! "search_index"
         = Some ({[ "document_count" :=
                      VInt match fst (cognitive_search.get_document_count
                                        (cognitive_search.search_client self) b)
                           with
                           | Ok n => n
                           | Raise _ => 0
                           end;
                    "index_name" :=
                      VStr (cognitive_search.index_name self) ]} : document)
  end.
Proof.
  cbv zeta. unfold chatbot.get_statistics.
  unfold bind, main.on_storage, main.on_search, ret.
  cbn [main.w_storage main.w_search main.w_fs main.w_clock main.w_trace].
  destruct (main.list_documents storage s) as [[names|e] s1]; [|reflexivity].
  cbn [main.w_storage main.w_search main.w_fs main.w_clock main.w_trace
       main.azure_search_index main.get_index_statistics].
  rewrite get_index_statistics_eq.
  destruct (cognitive_search.get_document_count _ b) as [[n|e] b1];
    cbn [fst snd]; eexists; (split; [reflexivity|]); split; reflexivity.
Qed.

(* --------------------------------------------------------------------- *)
(** ** Downloading a blob *)
(* --------------------------------------------------------------------- *)

(** X17. [download_document] opens the destination for writing before it
    asks for the blob.  If the destination cannot be opened the error is
    raised and the service is not asked.  If the blob cannot be fetched
    (it does not exist, or the service fails) the error is raised and the
    destination is left as an empty file, whatever it held before.
    Otherwise the destination holds the blob's bytes and its path is
    returned. *)
Theorem download_document_contract {R}
    (download_blob : string -> string -> M R string)
    (self : blob_storage.DocumentStorage R) blob_name download_path
    (fs : filesystem) (r : R) :
  let run := blob_download.download_document download_blob self blob_name
               download_path (fs, r) in
  match os_write.open_wb fs download_path with
  | Raise e => run = (Raise e, (fs, r))
  | Ok fs1 =>
    fs1 !! download_path = Some (File "" true)
    /\ match download_blob (blob_storage.container_name self) blob_name r with
       | (Raise e, r1) => run = (Raise e, (fs1, r1))
       | (Ok data, r1) =>
         exists fs2,
           run = (Ok download_path, (fs2, r1))
           /\ os.read_bytes fs2 download_path = Ok data
           /\ forall p, p <> download_path -> fs2 !! p = fs1 !! p
       end
  end.
Proof.
  cbv zeta. unfold blob_download.download_document.
  unfold try_except, bind, blob_download.on_fs, blob_download.on_remote,
    ret, raise.
  cbn [fst snd].
  destruct (os_write.open_wb fs download_path) as [fs1|e] eqn:Eopen.
  2:{ destruct e; reflexivity. }
  assert (Hempty : fs1 !! download_path = Some (File "" true)).
  { unfold os_write.open_wb in Eopen.
    destruct (fs !! download_path) as [[data [|]|entries sz]|];
      try discriminate.
    - injection Eopen as <-. apply lookup_insert_eq.
    - destruct (String.eqb download_path ""); [discriminate|].
      destruct (String.eqb (Py.basename download_path) "").
      { destruct (fs !! os_write.dirname download_path) as [[]|];
          discriminate. }
      destruct (String.eqb (os_write.dirname download_path) "").
      { injection Eopen as <-. apply lookup_insert_eq. }
      destruct (fs !! os_write.dirname download_path) as [[]|];
        try discriminate.
      injection Eopen as <-. apply lookup_insert_eq. }
  split; [exact Hempty|]. cbn [fst snd].
  destruct (download_blob _ _ r) as [[data|e] r1]; cbn [fst snd].
  - eexists. split; [reflexivity|]. unfold os_write.write. split.
    + unfold os.read_bytes. rewrite lookup_insert_eq. reflexivity.
    + intros p Hp. apply lookup_insert_ne. congruence.
  - destruct e; reflexivity.
Qed.

(** X18. Upload, then download, on the in-memory blob service: after a
    successful [upload_document] of a file, [download_document] of the
    returned blob name to a destination that can be opened writes there
    the very bytes of the uploaded file, when the service answers. *)
Theorem download_returns_uploaded_bytes c fs path blob_name
    (r r' : InMemory.remote InMemory.containers) name destination fs1 :
  let self := InMemory.document_storage c in
  blob_storage.upload_document self fs path blob_name r = (Ok name, r') ->
  os_write.open_wb fs destination = Ok fs1 ->
  InMemory.next_fault r' = None ->
  exists data fs2 r2,
    os.read_bytes fs path = Ok data
    /\ blob_download.download_document in_memory_download_blob self name
         destination (fs, r') = (Ok destination, (fs2, r2))
    /\ os.read_bytes fs2 destination = Ok data.
Proof.
  intros self Hup Hopen Hf. subst self.
  destruct (in_memory_upload_document _ _ _ _ _ _ _ Hup)
    as (data & blobs & Hread & Hc & _ & Hst).
  pose proof (download_document_contract in_memory_download_blob
                (InMemory.document_storage c) name destination fs r') as H.
  cbv zeta in H. rewrite Hopen in H. destruct H as [_ H].
  assert (Hd : exists r2,
             in_memory_download_blob c name r' = (Ok data, r2)).
  { unfold in_memory_download_blob, InMemory.sdk_call, InMemory.next_fault
      in *.
    rewrite Hst, !lookup_insert_eq.
    destruct (InMemory.faults r') as [|[st|] rest]; try discriminate; eauto. }
  destruct Hd as [r2 Hd].
  cbn [InMemory.document_storage blob_storage.container_name] in H.
  rewrite Hd in H. destruct H as (fs2 & E & Hr & _).
  exists data, fs2, r2. auto.
Qed.

Lemma download_returns_uploaded_bytes_witness :
  let r' := snd (blob_storage.upload_document Sample.storage Sample.fs
                   "docs/brief.pdf" None Sample.blob_service) in
  exists fs2 r2,
    blob_download.download_document in_memory_download_blob Sample.storage
      "brief.pdf" "copy.pdf" (Sample.fs, r') = (Ok "copy.pdf", (fs2, r2))
    /\ os.read_bytes fs2 "copy.pdf" = Ok "%PDF-1.4".
Proof.
  intros r'.
  destruct (os_write.open_wb Sample.fs "copy.pdf") as [fs1|e] eqn:Eopen.
  2:{ exfalso.
      assert (H : is_ok (os_write.open_wb Sample.fs "copy.pdf") = true)
        by (vm_compute; reflexivity).
      rewrite Eopen in H. discriminate. }
  destruct (download_returns_uploaded_bytes "legal-documents" Sample.fs
              "docs/brief.pdf" None Sample.blob_service r' "brief.pdf"
              "copy.pdf" fs1)
    as (data & fs2 & r2 & Hread & E & Hcopy).
  - subst r'. apply with_fst. vm_compute. reflexivity.
  - exact Eopen.
  - vm_compute. reflexivity.
  - exists fs2, r2. split; [exact E|].
    assert (Hd : Ok data = Ok "%PDF-1.4")
      by (rewrite <- Hread; vm_compute; reflexivity).
    injection Hd as ->. exact Hcopy.
Defined.

(** A download of a blob that does not exist, onto an existing file: the
    call raises and the file is left empty. *)
Example failed_download_empties_the_destination :
  let '(a, (fs', _)) :=
    blob_download.download_document in_memory_download_blob Sample.storage
      "ghost.pdf" "docs/lease.txt" (Sample.fs, Sample.blob_service) in
  os.read_bytes Sample.fs "docs/lease.txt"
  = Ok "notice of contract termination"
  /\ a = Raise ResourceNotFoundError
  /\ os.read_bytes fs' "docs/lease.txt" = Ok "".
Proof. vm_compute. repeat split. Qed.

(* --------------------------------------------------------------------- *)
(** ** The scraper's comment list *)
(* --------------------------------------------------------------------- *)

Section Flatten.

Import reddit_scraper.
Context {timestamp : Type}.
Implicit Types (items : list (item timestamp)).

Lemma flatten_from_unbounded items idx flat :
  flatten_from timestamp items idx None flat
  = (flat ++ map (entry timestamp) (comments_of timestamp items))%list.
Proof.
  revert idx flat. induction items as [|i items IH]; intros idx flat.
  - simpl. rewrite app_nil_r. reflexivity.
  - cbn [flatten_from]. destruct i as [c|]; rewrite IH.
    + cbn [comments_of flat_map app map]. rewrite <- app_assoc. reflexivity.
    + reflexivity.
Qed.

Lemma flatten_from_bounded items idx m flat :
  0 <= idx ->
  flatten_from timestamp items idx (Some m) flat
  = (flat ++ map (entry timestamp)
               (comments_of timestamp (take (Z.to_nat (m - idx)) items)))%list.
Proof.
  revert idx flat. induction items as [|i items IH]; intros idx flat Hidx.
  - rewrite take_nil. simpl. rewrite app_nil_r. reflexivity.
  - cbn [flatten_from]. destruct (m <=? idx) eqn:Hm.
    + apply Z.leb_le in Hm.
      replace (Z.to_nat (m - idx)) with 0%nat by lia.
      simpl. rewrite app_nil_r. reflexivity.
    + apply Z.leb_gt in Hm.
      replace (Z.to_nat (m - idx)) with (Datatypes.S (Z.to_nat (m - (idx + 1))))
        by lia.
      cbn [take]. destruct i as [c|]; rewrite IH by lia.
      * cbn [comments_of flat_map app map]. rewrite <- app_assoc.
        reflexivity.
      * reflexivity.
Qed.

Lemma comments_of_length items :
  (length (comments_of timestamp items) <= length items)%nat.
Proof.
  induction items as [|[c|] items IH]; simpl; lia.
Qed.

End Flatten.

(** X19. [flatten_comments] returns, in the order of the listing, one
    record for each comment among the first [max_comments] elements of
    the listing, all of them when no bound is given.  [MoreComments]
    placeholders are left out but count toward the bound, so at most
    [max_comments] records come back, and none for a bound of zero or
    less. *)
Theorem flatten_comments_takes_a_prefix {timestamp : Type}
    (items : list (reddit_scraper.item timestamp)) (max_comments : option Z) :
  reddit_scraper.flatten_comments timestamp items max_comments
  = map (reddit_scraper.entry timestamp)
        (reddit_scraper.comments_of timestamp
           match max_comments with
           | None => items
           | Some m => take (Z.to_nat m) items
           end)
  /\ match max_comments with
     | None => True
     | Some m =>
       Z.of_nat (length (reddit_scraper.flatten_comments timestamp items
                           max_comments)) <= Z.max 0 m
     end.
Proof.
  assert (E : reddit_scraper.flatten_comments timestamp items max_comments
              = map (reddit_scraper.entry timestamp)
                  (reddit_scraper.comments_of timestamp
                     match max_comments with
                     | None => items
                     | Some m => take (Z.to_nat m) items
                     end)).
  { unfold reddit_scraper.flatten_comments. destruct max_comments as [m|].
    - rewrite flatten_from_bounded by lia. rewrite Z.sub_0_r. reflexivity.
    - rewrite flatten_from_unbounded. reflexivity. }
  split; [exact E|]. destruct max_comments as [m|]; [|exact I].
  rewrite E, length_map.
  pose proof (comments_of_length (take (Z.to_nat m) items)) as H.
  rewrite length_take in H. lia.
Qed.

(* --------------------------------------------------------------------- *)
(** ** Extraction agrees with the extension filter *)
(* --------------------------------------------------------------------- *)

Lemma endswith_app (P E : list ascii) (x : string) :
  (length (Py.chars x) <= length E)%nat ->
  Py.endswith (Py.str (P ++ E)) x = Py.endswith (Py.str E) x.
Proof.
  intros Hlen. unfold Py.endswith. rewrite !chars_str, length_app.
  rewrite drop_app_ge by lia.
  replace (length P + length E - length (Py.chars x) - length P)%nat
    with (length E - length (Py.chars x))%nat by lia.
  f_equal.
  destruct (Nat.leb_spec (length (Py.chars x)) (length E)) as [_|H];
    [|lia].
  apply Nat.leb_le. lia.
Qed.

Lemma join_suffix (a b : string) :
  exists pre, Py.chars (Py.join a b) = (pre ++ Py.chars b)%list.
Proof.
  unfold Py.join. destruct (String.prefix "/" b).
  - exists []. reflexivity.
  - destruct (String.eqb a "" || Py.endswith a "/").
    + exists (Py.chars a). apply chars_app.
    + exists (Py.chars a ++ Py.chars "/")%list.
      rewrite !chars_app, app_assoc. reflexivity.
Qed.

(** The lower-cased path of a child ends with the lower-cased extension
    of its name. *)
Lemma lower_path_ends_with_extension directory_path filename (e : string) :
  Py.lower (snd (Py.splitext filename)) = e -> e <> "" ->
  exists P, Py.lower (Py.join directory_path filename)
            = Py.str (P ++ Py.chars e).
Proof.
  intros He Hne. unfold Py.splitext in He.
  set (f := Py.chars filename) in *.
  destruct (_ && _) in He; cbn [snd] in He.
  2:{ exfalso. apply Hne. rewrite <- He. reflexivity. }
  set (d := Z.to_nat (Py.rfind Py.extsep f)) in *.
  destruct (join_suffix directory_path filename) as [pre Hpre].
  fold f in Hpre.
  exists (map Py.lower_char (pre ++ take d f)).
  unfold Py.lower at 1. rewrite Hpre. f_equal.
  rewrite <- (take_drop d f) at 1. rewrite app_assoc, map_app. f_equal.
  rewrite <- He. unfold Py.lower. rewrite !chars_str. reflexivity.
Qed.

(** X20. For a child of a directory, the extension that lets it through
    the directory walks' filter also decides how its text is extracted:
    a [.txt] or [.md] extension (in any letter case) means the file is
    read, with the error placeholder if reading fails; [.pdf] gives the
    PDF placeholder; [.doc] and [.docx] give the unsupported-type
    placeholder and are never read. *)
Theorem extraction_follows_the_extension (fs : filesystem)
    (directory_path filename : string) :
  let file_path := Py.join directory_path filename in
  let ext := Py.lower (snd (Py.splitext filename)) in
  (ext = ".txt" \/ ext = ".md" ->
   main._extract_text_content fs file_path
   = match os.read_text fs file_path with
     | Ok text => Ok text
     | Raise _ =>
       Ok ("Error extracting content from " ++ Py.basename file_path)
     end)
  /\ (ext = ".pdf" ->
      main._extract_text_content fs file_path
      = Ok ("PDF content from " ++ Py.basename file_path
            ++ " - Content extraction not implemented yet"))
  /\ (ext = ".doc" \/ ext = ".docx" ->
      main._extract_text_content fs file_path
      = Ok ("Content from " ++ Py.basename file_path
            ++ " - File type not supported for text extraction")).
Proof.
  cbv zeta.
  assert (Hends : forall e x,
             Py.lower (snd (Py.splitext filename)) = e -> e <> "" ->
             (length (Py.chars x) <= length (Py.chars e))%nat ->
             Py.endswith (Py.lower (Py.join directory_path filename)) x
             = Py.endswith e x).
  { intros e x He Hne Hlen.
    destruct (lower_path_ends_with_extension directory_path filename e He Hne)
      as [P ->].
    rewrite endswith_app by exact Hlen. rewrite str_chars. reflexivity. }
  unfold main._extract_text_content.
  split; [|split].
  - intros [He|He].
    + rewrite (Hends ".txt" ".txt" He) by (simpl; (discriminate || lia)).
      reflexivity.
    + rewrite (Hends ".md" ".md" He) by (simpl; (discriminate || lia)).
      rewrite orb_true_r. reflexivity.
  - intros He.
    rewrite (Hends ".pdf" ".txt" He), (Hends ".pdf" ".md" He),
      (Hends ".pdf" ".pdf" He) by (simpl; (discriminate || lia)).
    reflexivity.
  - intros [He|He].
    + rewrite (Hends ".doc" ".txt" He), (Hends ".doc" ".md" He),
        (Hends ".doc" ".pdf" He) by (simpl; (discriminate || lia)).
      reflexivity.
    + rewrite (Hends ".docx" ".txt" He), (Hends ".docx" ".md" He),
        (Hends ".docx" ".pdf" He) by (simpl; (discriminate || lia)).
      reflexivity.
Qed.

Lemma extraction_follows_the_extension_witness :
  main._extract_text_content Sample.fs (Py.join "docs" "Report.DOCX")
  = Ok "Content from Report.DOCX - File type not supported for text extraction"
  /\ main._extract_text_content Sample.fs (Py.join "docs" "lease.txt")
     = Ok "notice of contract termination".
Proof.
  split.
  - rewrite (proj2 (proj2 (extraction_follows_the_extension Sample.fs "docs"
                             "Report.DOCX"))).
    + vm_compute. reflexivity.
    + right. vm_compute. reflexivity.
  - rewrite (proj1 (extraction_follows_the_extension Sample.fs "docs"
                      "lease.txt")).
    + vm_compute. reflexivity.
    + left. vm_compute. reflexivity.
Defined.

(* --------------------------------------------------------------------- *)
(** ** Directory upload and batch upsert of the adapters *)
(* --------------------------------------------------------------------- *)



(** X22. [index_documents_batch], whatever the client: it never raises;
    for an empty list it returns [0] without calling the backend; for a
    non-empty list it makes one [upload_documents] call with the whole
    list and returns the number of acknowledgements that report success,
    or [0] if that call raises; the result is never negative and never
    more than the number of acknowledgements. *)
Theorem index_documents_batch_contract {B}
    (self : cognitive_search.DocumentSearchIndex B)
    (documents_data : list document) (b : B) :
  cognitive_search.index_documents_batch self documents_data b
  = match documents_data with
    | [] => (Ok 0, b)
    | _ :: _ =>
      match cognitive_search.upload_documents
              (cognitive_search.search_client self) documents_data b with
      | (Ok results, b') => (Ok (count_succeeded results), b')
      | (Raise _, b') => (Ok 0, b')
      end
    end
  /\ exists n b',
       cognitive_search.index_documents_batch self documents_data b
       = (Ok n, b')
       /\ 0 <= n
       /\ match fst (cognitive_search.upload_documents
                       (cognitive_search.search_client self) documents_data b)
          with
          | Ok results => n <= Z.of_nat (length results)
          | Raise _ => n = 0
          end.
Proof.
  split; [apply index_documents_batch_eq|].
  rewrite index_documents_batch_eq. destruct documents_data as [|d ds].
  - exists 0, b. split; [reflexivity|]. split; [lia|].
    destruct (fst _); [lia|reflexivity].
  - destruct (cognitive_search.upload_documents _ _ _) as [[rs|e] b'];
      cbn [fst].
    + exists (count_succeeded rs), b'. split; [reflexivity|].
      unfold count_succeeded.
      pose proof (length_filter (fun r => cognitive_search.succeeded r = true)
                    rs).
      lia.
    + exists 0, b'. split; [reflexivity|]. lia.
Qed.
